(** * Weather dashboard: the refresh pipeline, embedded and verified

    A shallow embedding of [Weatherdashboard.py] (the queued dashboard:
    [WeatherAPI], [DataManager], [WeatherDashboard]) and of [pro.py] (the
    earlier single-file script), followed by the properties of the refresh
    pipeline.

    Modelling conventions.
    - A Python value coming out of [response.json()] is a [pyval]; a [dict]
      is a [gmap string pyval].  Python does not check the annotations of
      the [WeatherData] dataclass, so its fields hold arbitrary [pyval]s.
    - A [str] is a [string] whose characters are code points below 256.
    - Code that can raise runs in a state-and-exception monad [M]; [try:
      ... except ...:] is [try_except].  [Queue.get] on an empty queue does
      not return: the computation is [Block]ed.
    - The network, the clock, the file system, Pillow and matplotlib are an
      oracle [Env]; its answers may change from one call to the next, so
      they are indexed by the number [ticks] of calls made so far.
    - In the embedding of [Weatherdashboard.py] a write to a Tk variable
      is a plain store.  [Module Tk] repeats the functions of the worker
      thread with every Tk write allowed to raise; what is proved about
      the survival of the worker is proved there.
    - The history file is a list of lines of typed cells: what a line
      reads as text, and what a reader makes of that text, is pandas'
      business ([csv_field] gives the text of one value). *)

From Stdlib Require Import ZArith SpecFloat Ascii String List Lia.
From stdpp Require Import gmap strings list pretty.

#[local] Set Warnings "-register-all".
#[local] Open Scope Z_scope.

(** ** Python values *)

Inductive pyval :=
  | PNone
  | PBool (b : bool)
  | PInt (z : Z)
  | PFloat (f : spec_float)
  | PStr (s : string)
  | PList (l : list pyval)
  | PDict (d : gmap string pyval).

(** The exceptions the two programs can meet.  [RequestException] stands
    for [requests.RequestException] and all its subclasses ([ConnectionError],
    [HTTPError], [Timeout], ...); the others are builtins, all subclasses of
    [Exception] ([RuntimeError] is what Tk raises when it is called from
    the worker thread while the main loop is not running). *)
Inductive exn :=
  | RequestException (msg : string)
  | KeyError (key : string)
  | TypeError (msg : string)
  | IndexError (msg : string)
  | ValueError (msg : string)
  | OSError (msg : string)
  | RuntimeError (msg : string).

Definition is_RequestException (e : exn) : bool :=
  match e with RequestException _ => true | _ => false end.

(** [str(e)], as interpolated by [f"...{e}"].  The texts the model gives
    to the exceptions of the libraries are abbreviations of the real ones;
    they appear in log lines only and nothing else depends on them. *)
Definition exn_str (e : exn) : string :=
  match e with
  | RequestException m => m
  | KeyError k => "'" +:+ k +:+ "'"
  | TypeError m => m
  | IndexError m => m
  | ValueError m => m
  | OSError m => m
  | RuntimeError m => m
  end.

(** [v[k]] for a string key [k]. *)
Definition getitem (v : pyval) (k : string) : exn + pyval :=
  match v with
  | PDict d =>
      match d !! k with
      | Some x => inr x
      | None => inl (KeyError k)
      end
  | PList _ => inl (TypeError "list indices must be integers or slices, not str")
  | PStr _ => inl (TypeError "string indices must be integers, not 'str'")
  | _ => inl (TypeError "object is not subscriptable")
  end.

(** [v[0]]. *)
Definition getitem0 (v : pyval) : exn + pyval :=
  match v with
  | PList (x :: _) => inr x
  | PList [] => inl (IndexError "list index out of range")
  | PStr (String c _) => inr (PStr (String c EmptyString))
  | PStr EmptyString => inl (IndexError "string index out of range")
  | PDict _ => inl (KeyError "0")
  | _ => inl (TypeError "object is not subscriptable")
  end.

(** [iter(v)] run to the end, as a list comprehension does.  Iterating a
    dict yields its keys, iterating a str its characters. *)
Definition py_iter (v : pyval) : exn + list pyval :=
  match v with
  | PList l => inr l
  | PDict d => inr (PStr <$> (map_to_list d).*1)
  | PStr s => inr ((fun c => PStr (String c EmptyString)) <$> list_ascii_of_string s)
  | _ => inl (TypeError "object is not iterable")
  end.

(** ** The state-and-exception monad *)

Inductive outcome (A : Type) :=
  | Ret (a : A)
  | Raise (e : exn)
  | Block.
Arguments Ret {A} a.
Arguments Raise {A} e.
Arguments Block {A}.

Definition M (S A : Type) : Type := S → outcome A * S.

Definition raise {S A} (e : exn) : M S A := fun s => (Raise e, s).
Definition block {S A} : M S A := fun s => (Block, s).

#[global] Instance M_ret {S} : MRet (M S) := fun A a s => (Ret a, s).

#[global] Instance M_bind {S} : MBind (M S) := fun A B k m s =>
  match m s with
  | (Ret a, s') => k a s'
  | (Raise e, s') => (Raise e, s')
  | (Block, s') => (Block, s')
  end.

(** A pure computation that may raise, run inside [M]. *)
Definition lift {S A} (r : exn + A) : M S A :=
  match r with
  | inr a => mret a
  | inl e => raise e
  end.

(** [try: body  except <class> as e: handler e], where [catches e] tells
    whether [e] is an instance of the class.  An exception raised by the
    handler itself propagates. *)
Definition try_except {S A} (catches : exn → bool)
    (body : M S A) (handler : exn → M S A) : M S A :=
  fun s =>
    match body s with
    | (Raise e, s') => if catches e then handler e s' else (Raise e, s')
    | r => r
    end.

(** [except Exception]: every exception of the model. *)
Definition Exception (e : exn) : bool := true.

(** A store write and a store read. *)
Definition modify {S} (f : S → S) : M S unit := fun s => (Ret tt, f s).
Definition gets {S A} (f : S → A) : M S A := fun s => (Ret (f s), s).

(** Sequencing of pure fallible lookups. *)
Definition and_then {A B} (r : exn + A) (k : A → exn + B) : exn + B :=
  match r with
  | inr a => k a
  | inl e => inl e
  end.

#[global] Instance sum_exn_ret : MRet (sum exn) := fun A a => inr a.
#[global] Instance sum_exn_bind : MBind (sum exn) := fun A B k r => and_then r k.

(** ** Strings *)

(** [str.isspace] on one character (code points below 256): the ASCII
    whitespace, the separators U+001C..U+001F, NEL and NBSP. *)
Definition isspace (c : ascii) : bool :=
  let n := nat_of_ascii c in
  ((9 <=? n) && (n <=? 13) || (28 <=? n) && (n <=? 32)
   || (n =? 133) || (n =? 160))%nat.

Fixpoint drop_spaces (l : list ascii) : list ascii :=
  match l with
  | c :: l' => if isspace c then drop_spaces l' else l
  | [] => []
  end.

(** [s.strip()]. *)
Definition strip (s : string) : string :=
  string_of_list_ascii
    (rev (drop_spaces (rev (drop_spaces (list_ascii_of_string s))))).

(** The truth value of a [str]: non-empty. *)
Definition str_truthy (s : string) : bool :=
  match s with EmptyString => false | _ => true end.

Definition degree_sign : ascii := "176"%char.

(** ** The outside world *)

Record request := {
  url : string;
  params : list (string * string)
}.

(** A [requests.Response]: its status, what [.json()] does on its body and
    its raw [.content]. *)
Record response := {
  status_code : Z;
  json_result : exn + pyval;
  content : string
}.

Inductive http_outcome :=
  | HttpRaises (e : exn)
  | HttpResponse (r : response).

(** The points [(time, temp_c)] handed to [ax.plot]. *)
Definition series : Type := list (string * pyval).

Inductive draw_outcome :=
  | DrawOk
  | PlotRaises (e : exn)
  | DrawRaises (e : exn).

Record Env := {
  api_key : string;
  base_url : string;
  default_city : string;
  (** the answer to the request issued as the [n]-th call *)
  http : nat → request → http_outcome;
  (** [datetime.now()] *)
  now : nat → Z;
  (** [DataFrame.to_csv(..., mode='a')]: [Some e] when the write raises *)
  to_csv : nat → option exn;
  (** [format(v, '')] of a value that is not a [str] *)
  py_format : pyval → string;
  (** [ImageTk.PhotoImage(Image.open(BytesIO(content)))] *)
  photo_image : string → option exn;
  (** whether [datetime.fromisoformat] accepts the string *)
  iso_valid : string → bool;
  (** the matplotlib calls from [ax.plot] to [canvas.draw] *)
  matplotlib : nat → series → draw_outcome
}.

(** [f"{v}"]. *)
Definition py_str (E : Env) (v : pyval) : string :=
  match v with
  | PStr s => s
  | _ => py_format E v
  end.

(** A request or a [.json()] call raises only subclasses of
    [requests.RequestException] (what requests documents, and since 2.27
    also holds of [.json()]). *)
Definition requests_contract (E : Env) : Prop :=
  ∀ n rq,
    match http E n rq with
    | HttpRaises e => is_RequestException e = true
    | HttpResponse r =>
        match json_result r with
        | inl e => is_RequestException e = true
        | inr _ => True
        end
    end.

(** ** The history file *)

Inductive cell :=
  | CTimestamp (t : Z)
  | CValue (v : pyval).

Inductive csv_line :=
  | Header (names : list string)
  | Row (cells : list cell).

Definition is_header (l : csv_line) : bool :=
  match l with Header _ => true | Row _ => false end.

(** What [to_csv(path, mode='a', header=h, index=False)] appends for a
    one-row frame with the given columns. *)
Definition csv_lines (columns : list (string * cell)) (header : bool)
    : list csv_line :=
  (if header then [Header columns.*1] else []) ++ [Row columns.*2].

(** ** The state of the dashboard *)

Record WeatherData := {
  temperature : pyval;
  condition : pyval;
  humidity : pyval;
  wind_speed : pyval;
  pressure : pyval;
  feels_like : pyval;
  icon_url : string
}.

(** The payload [get_weather] returns: the dict with the keys ['current']
    and ['forecast']. *)
Record payload := {
  current : pyval;
  forecast : pyval
}.

(** The Tk variables of the current-weather frame and the icon label. *)
Record display := {
  temp_var : string;
  condition_var : string;
  humidity_var : string;
  wind_var : string;
  pressure_var : string;
  icon_label : option string
}.

(** [queue.Queue]: the pending items, oldest first, and the counter behind
    [task_done]. *)
Record queue := {
  items : list string;
  unfinished_tasks : nat
}.

Record world := {
  city_var : string;
  shown : display;
  status_var : string;
  ax_plot : series;
  update_queue : queue;
  (** data/weather_history.csv; [None]: the file does not exist *)
  history_file : option (list csv_line);
  (** every request issued, oldest first *)
  http_log : list request;
  (** every value written to [status_var], oldest first *)
  status_log : list string;
  (** every [logger.error] message, oldest first *)
  error_log : list string;
  (** every [messagebox.showwarning] *)
  warnings : list (string * string);
  ticks : nat
}.

Definition set_city_var (v : string) (w : world) : world :=
  {| city_var := v; shown := shown w; status_var := status_var w;
     ax_plot := ax_plot w; update_queue := update_queue w;
     history_file := history_file w; http_log := http_log w;
     status_log := status_log w; error_log := error_log w;
     warnings := warnings w; ticks := ticks w |}.

Definition set_shown (v : display) (w : world) : world :=
  {| city_var := city_var w; shown := v; status_var := status_var w;
     ax_plot := ax_plot w; update_queue := update_queue w;
     history_file := history_file w; http_log := http_log w;
     status_log := status_log w; error_log := error_log w;
     warnings := warnings w; ticks := ticks w |}.

Definition set_status (v : string) (w : world) : world :=
  {| city_var := city_var w; shown := shown w; status_var := v;
     ax_plot := ax_plot w; update_queue := update_queue w;
     history_file := history_file w; http_log := http_log w;
     status_log := status_log w ++ [v]; error_log := error_log w;
     warnings := warnings w; ticks := ticks w |}.

Definition set_ax_plot (v : series) (w : world) : world :=
  {| city_var := city_var w; shown := shown w; status_var := status_var w;
     ax_plot := v; update_queue := update_queue w;
     history_file := history_file w; http_log := http_log w;
     status_log := status_log w; error_log := error_log w;
     warnings := warnings w; ticks := ticks w |}.

Definition set_update_queue (v : queue) (w : world) : world :=
  {| city_var := city_var w; shown := shown w; status_var := status_var w;
     ax_plot := ax_plot w; update_queue := v;
     history_file := history_file w; http_log := http_log w;
     status_log := status_log w; error_log := error_log w;
     warnings := warnings w; ticks := ticks w |}.

Definition set_history_file (v : option (list csv_line)) (w : world) : world :=
  {| city_var := city_var w; shown := shown w; status_var := status_var w;
     ax_plot := ax_plot w; update_queue := update_queue w;
     history_file := v; http_log := http_log w;
     status_log := status_log w; error_log := error_log w;
     warnings := warnings w; ticks := ticks w |}.

Definition add_http_log (r : request) (w : world) : world :=
  {| city_var := city_var w; shown := shown w; status_var := status_var w;
     ax_plot := ax_plot w; update_queue := update_queue w;
     history_file := history_file w; http_log := http_log w ++ [r];
     status_log := status_log w; error_log := error_log w;
     warnings := warnings w; ticks := ticks w |}.

Definition add_error_log (m : string) (w : world) : world :=
  {| city_var := city_var w; shown := shown w; status_var := status_var w;
     ax_plot := ax_plot w; update_queue := update_queue w;
     history_file := history_file w; http_log := http_log w;
     status_log := status_log w; error_log := error_log w ++ [m];
     warnings := warnings w; ticks := ticks w |}.

Definition add_warning (m : string * string) (w : world) : world :=
  {| city_var := city_var w; shown := shown w; status_var := status_var w;
     ax_plot := ax_plot w; update_queue := update_queue w;
     history_file := history_file w; http_log := http_log w;
     status_log := status_log w; error_log := error_log w;
     warnings := warnings w ++ [m]; ticks := ticks w |}.

Definition set_ticks (n : nat) (w : world) : world :=
  {| city_var := city_var w; shown := shown w; status_var := status_var w;
     ax_plot := ax_plot w; update_queue := update_queue w;
     history_file := history_file w; http_log := http_log w;
     status_log := status_log w; error_log := error_log w;
     warnings := warnings w; ticks := n |}.

(** ** Weatherdashboard.py *)

Section Dashboard.

Context (E : Env).

(** One more call to the outside world: its index. *)
Definition tick : M world nat :=
  fun w => (Ret (ticks w), set_ticks (S (ticks w)) w).

(** [self.status_var.set(text)] *)
Definition status_var_set (text : string) : M world unit :=
  modify (set_status text).

(** [logger.error(msg)] *)
Definition logger_error (msg : string) : M world unit :=
  modify (add_error_log msg).

(** [self.session.get(url, params=params)] and [requests.get(url)]. *)
Definition http_get (u : string) (ps : list (string * string))
    : M world response :=
  n ← tick;
  modify (add_http_log {| url := u; params := ps |});;
  match http E n {| url := u; params := ps |} with
  | HttpRaises e => raise e
  | HttpResponse r => mret r
  end.

(** [response.raise_for_status()]: an [HTTPError] for 4xx and 5xx. *)
Definition raise_for_status (r : response) : M world unit :=
  if (400 <=? status_code r) && (status_code r <? 600)
  then raise (RequestException ("HTTPError: " +:+ pretty (status_code r)))
  else mret tt.

(** [response.json()] *)
Definition response_json (r : response) : M world pyval :=
  lift (json_result r).

(** [WeatherAPI.get_weather] *)
Definition get_weather (city : string) : M world (option payload) :=
  try_except is_RequestException
    (let params := [("key", api_key E); ("q", city); ("aqi", "yes")] in
     current_response ← http_get (base_url E +:+ "/current.json") params;
     forecast_response ←
       http_get (base_url E +:+ "/forecast.json") (params ++ [("days", "1")]);
     raise_for_status current_response;;
     raise_for_status forecast_response;;
     cj ← response_json current_response;
     fj ← response_json forecast_response;
     mret (Some {| current := cj; forecast := fj |}))
    (fun e =>
       logger_error ("API request failed: " +:+ exn_str e);;
       mret None).

(** [datetime.now()] *)
Definition datetime_now : M world Z :=
  n ← tick;
  mret (now E n).

(** [self.history_file.exists()] *)
Definition history_file_exists : M world bool :=
  gets (fun w => bool_decide (is_Some (history_file w))).

(** [df.to_csv(self.history_file, mode='a', header=header, index=False)]:
    either the lines are appended (the file is created when absent) or the
    call raises and the file is as before. *)
Definition df_to_csv (columns : list (string * cell)) (header : bool)
    : M world unit :=
  n ← tick;
  match to_csv E n with
  | Some e => raise e
  | None =>
      modify (fun w =>
        set_history_file
          (Some (default [] (history_file w) ++ csv_lines columns header)) w)
  end.

(** The frame [DataManager.save_weather_data] builds, column by column. *)
Definition history_columns (t : Z) (city : string) (weather : WeatherData)
    : list (string * cell) :=
  [("timestamp", CTimestamp t);
   ("city", CValue (PStr city));
   ("temperature", CValue (temperature weather));
   ("condition", CValue (condition weather));
   ("humidity", CValue (humidity weather));
   ("wind_speed", CValue (wind_speed weather));
   ("pressure", CValue (pressure weather))].

(** [DataManager.save_weather_data] *)
Definition save_weather_data (city : string) (weather : WeatherData)
    : M world unit :=
  try_except Exception
    (t ← datetime_now;
     let data := history_columns t city weather in
     present ← history_file_exists;
     df_to_csv data (negb present))
    (fun e => logger_error ("Failed to save weather data: " +:+ exn_str e)).

(** The [WeatherData(...)] construction at the head of
    [process_weather_data]; the keyword arguments are evaluated in the
    order they are written. *)
Definition make_weather (data : payload) : exn + WeatherData :=
  cur ← getitem (current data) "current";
  temp_c ← getitem cur "temp_c";
  text ← getitem cur "condition" ≫= (fun c => getitem c "text");
  hum ← getitem cur "humidity";
  wind_kph ← getitem cur "wind_kph";
  pressure_mb ← getitem cur "pressure_mb";
  feelslike_c ← getitem cur "feelslike_c";
  icon ← getitem cur "condition" ≫= (fun c => getitem c "icon");
  mret {| temperature := temp_c; condition := text; humidity := hum;
          wind_speed := wind_kph; pressure := pressure_mb;
          feels_like := feelslike_c;
          icon_url := "http:" +:+ py_str E icon |}.

(** The five [StringVar.set] calls of [update_ui]. *)
Definition show_weather (weather : WeatherData) (d : display) : display :=
  {| temp_var := py_str E (temperature weather) +:+ String degree_sign "C";
     condition_var := py_str E (condition weather);
     humidity_var := py_str E (humidity weather) +:+ "%";
     wind_var := py_str E (wind_speed weather) +:+ " km/h";
     pressure_var := py_str E (pressure weather) +:+ " mb";
     icon_label := icon_label d |}.

Definition show_icon (photo : string) (d : display) : display :=
  {| temp_var := temp_var d; condition_var := condition_var d;
     humidity_var := humidity_var d; wind_var := wind_var d;
     pressure_var := pressure_var d; icon_label := Some photo |}.

(** [WeatherDashboard.update_ui] *)
Definition update_ui (city : string) (weather : WeatherData) : M world unit :=
  modify (fun w => set_shown (show_weather weather (shown w)) w);;
  try_except Exception
    (response ← http_get (icon_url weather) [];
     match photo_image E (content response) with
     | Some e => raise e
     | None =>
         modify (fun w => set_shown (show_icon (content response) (shown w)) w)
     end)
    (fun e => logger_error ("Failed to update weather icon: " +:+ exn_str e)).

(** [datetime.fromisoformat(t)] *)
Definition fromisoformat (t : pyval) : exn + string :=
  match t with
  | PStr s =>
      if iso_valid E s then inr s
      else inl (ValueError ("Invalid isoformat string: " +:+ s))
  | _ => inl (TypeError "fromisoformat: argument must be str")
  end.

(** [[f(x) for x in l]] *)
Fixpoint comprehension {A} (f : pyval → exn + A) (l : list pyval)
    : exn + list A :=
  match l with
  | [] => inr []
  | x :: l' =>
      y ← f x;
      ys ← comprehension f l';
      mret (y :: ys)
  end.

(** [forecast_data['forecast']['forecastday'][0]['hour']] *)
Definition forecast_hours (forecast_data : pyval) : exn + pyval :=
  fc ← getitem forecast_data "forecast";
  days ← getitem fc "forecastday";
  day ← getitem0 days;
  getitem day "hour".

(** [[datetime.fromisoformat(hour['time']) for hour in hours]] *)
Definition hour_times (hours : pyval) : exn + list string :=
  hs ← py_iter hours;
  comprehension (fun hour => t ← getitem hour "time"; fromisoformat t) hs.

(** [[hour['temp_c'] for hour in hours]] *)
Definition hour_temps (hours : pyval) : exn + list pyval :=
  hs ← py_iter hours;
  comprehension (fun hour => getitem hour "temp_c") hs.

(** The matplotlib calls of [update_forecast_graph], from [ax.clear()] to
    [canvas.draw()]. *)
Definition draw_forecast (points : series) : M world unit :=
  modify (set_ax_plot []);;
  n ← tick;
  match matplotlib E n points with
  | PlotRaises e => raise e
  | DrawRaises e => modify (set_ax_plot points);; raise e
  | DrawOk => modify (set_ax_plot points)
  end.

(** [WeatherDashboard.update_forecast_graph] *)
Definition update_forecast_graph (forecast_data : pyval) : M world unit :=
  try_except Exception
    (hours ← lift (forecast_hours forecast_data);
     times ← lift (hour_times hours);
     temps ← lift (hour_temps hours);
     draw_forecast (zip times temps))
    (fun e => logger_error ("Failed to update forecast graph: " +:+ exn_str e)).

(** [WeatherDashboard.process_weather_data] *)
Definition process_weather_data (city : string) (data : payload)
    : M world unit :=
  try_except Exception
    (weather ← lift (make_weather data);
     update_ui city weather;;
     update_forecast_graph (forecast data);;
     save_weather_data city weather;;
     status_var_set ("Weather updated for " +:+ city))
    (fun e =>
       logger_error ("Failed to process weather data: " +:+ exn_str e);;
       status_var_set "Failed to process weather data").

(** [Queue.put], [Queue.get] and [Queue.task_done]. *)
Definition queue_put (item : string) : M world unit :=
  fun w =>
    let q := update_queue w in
    (Ret tt,
     set_update_queue
       {| items := items q ++ [item];
          unfinished_tasks := S (unfinished_tasks q) |} w).

Definition queue_get : M world string :=
  fun w =>
    let q := update_queue w in
    match items q with
    | [] => (Block, w)
    | item :: rest =>
        (Ret item,
         set_update_queue
           {| items := rest; unfinished_tasks := unfinished_tasks q |} w)
    end.

Definition task_done : M world unit :=
  fun w =>
    let q := update_queue w in
    match unfinished_tasks q with
    | O => (Raise (ValueError "task_done() called too many times"), w)
    | S n =>
        (Ret tt,
         set_update_queue {| items := items q; unfinished_tasks := n |} w)
    end.

(** The body of the [while True:] loop of [update_worker]. *)
Definition update_worker_body : M world unit :=
  try_except Exception
    (city ← queue_get;
     status_var_set ("Fetching weather data for " +:+ city +:+ "...");;
     weather_data ← get_weather city;
     match weather_data with
     | Some data => process_weather_data city data
     | None => status_var_set "Failed to fetch weather data"
     end;;
     task_done)
    (fun e =>
       logger_error ("Update worker error: " +:+ exn_str e);;
       status_var_set "An error occurred").

(** [WeatherDashboard.update_worker], the loop unrolled [fuel] times.  The
    result is [Ret] when the loop is still going after [fuel] iterations,
    [Block] when the worker waits in [Queue.get], and [Raise] when an
    exception left the loop, which ends the thread. *)
Fixpoint update_worker (fuel : nat) : M world unit :=
  match fuel with
  | O => mret tt
  | S n => update_worker_body;; update_worker n
  end.

(** [WeatherDashboard.update_weather], the command of the Search button. *)
Definition update_weather : M world unit :=
  city ← gets (fun w => strip (city_var w));
  if str_truthy city then queue_put city
  else modify (add_warning ("Input Error", "Please enter a city name")).

(** [WeatherDashboard.load_initial_data] *)
Definition load_initial_data : M world unit :=
  modify (set_city_var (default_city E));;
  update_weather.

End Dashboard.

(** ** The refresh queue between the two threads

    The Tk thread runs [update_weather] when the user presses Search; the
    worker thread runs the loop of [update_worker].  The two share only
    the queue, and the worker takes its item at the very start of an
    iteration, so an iteration is one step of the system. *)

Inductive thread :=
  | Alive
  | Dead (e : exn).

Record system := {
  gui : world;
  update_thread : thread
}.

Inductive event :=
  (** the user types [text] in the entry and presses Search *)
  | Search (text : string)
  (** the worker thread runs one iteration of its loop *)
  | WorkerTurn.

Definition step (E : Env) (s : system) (ev : event) : system :=
  match ev with
  | Search text =>
      {| gui := (update_weather (set_city_var text (gui s))).2;
         update_thread := update_thread s |}
  | WorkerTurn =>
      match update_thread s with
      | Dead _ => s
      | Alive =>
          match update_worker_body E (gui s) with
          | (Ret _, w) => {| gui := w; update_thread := Alive |}
          | (Raise e, w) => {| gui := w; update_thread := Dead e |}
          | (Block, _) => s
          end
      end
  end.

Definition run (E : Env) (evs : list event) (s : system) : system :=
  foldl (step E) s evs.

(** The locations the events put on the queue, in order. *)
Definition enqueued (evs : list event) : list string :=
  omap (fun ev =>
          match ev with
          | Search text =>
              if str_truthy (strip text) then Some (strip text) else None
          | WorkerTurn => None
          end) evs.

(** The world when [WeatherDashboard.__init__] has built the window and
    the queue: nothing shown, nothing queued, no history yet. *)
Definition empty_world : world :=
  {| city_var := ""; 
     shown := {| temp_var := ""; condition_var := ""; humidity_var := "";
                 wind_var := ""; pressure_var := ""; icon_label := None |};
     status_var := ""; ax_plot := [];
     update_queue := {| items := []; unfinished_tasks := 0 |};
     history_file := None; http_log := []; status_log := [];
     error_log := []; warnings := []; ticks := 0 |}.

(** *** Reading the traces *)

(** The location a logged request asks the provider about: the ['q']
    parameter of a [get_weather] request for current conditions (the
    forecast request has a fourth parameter, the icon request none). *)
Definition fetch_city (r : request) : option string :=
  match params r with
  | [(_, _); (q, city); (_, _)] => if String.eqb q "q" then Some city else None
  | _ => None
  end.

(** The [get_weather] calls made so far, oldest first. *)
Definition fetch_calls (w : world) : list string :=
  omap fetch_city (http_log w).

(** The requests of one refresh cycle for [city]: the current-conditions
    request, then (unless that one raised) the forecast request, then
    (when a record was built) the icon request. *)
Definition current_request (E : Env) (city : string) : request :=
  {| url := base_url E +:+ "/current.json";
     params := [("key", api_key E); ("q", city); ("aqi", "yes")] |}.

Definition forecast_request (E : Env) (city : string) : request :=
  {| url := base_url E +:+ "/forecast.json";
     params := [("key", api_key E); ("q", city); ("aqi", "yes"); ("days", "1")] |}.

Definition icon_request (u : string) : request :=
  {| url := u; params := [] |}.

Inductive cycle_requests (E : Env) (city : string) : list request → Prop :=
  | cycle_current_only :
      cycle_requests E city [current_request E city]
  | cycle_fetch_only :
      cycle_requests E city [current_request E city; forecast_request E city]
  | cycle_with_icon u :
      cycle_requests E city
        [current_request E city; forecast_request E city; icon_request u].

(** The three failure statuses of the worker. *)
Definition failure_status (s : string) : bool :=
  bool_decide (s ∈ ["Failed to fetch weather data";
                    "Failed to process weather data";
                    "An error occurred"]).

(** The statuses that end a cycle for [city]: the success status or a
    failure status. *)
Definition final_status (city s : string) : Prop :=
  s = "Weather updated for " +:+ city ∨ failure_status s = true.

(** ** pro.py *)

Module Pro.

(** The widgets the script writes, the history file in the working
    directory and the requests issued. *)
Record world := {
  city_entry : string;
  temp_label : string;
  condition_label : string;
  humidity_label : string;
  (** [None]: [image=''] *)
  icon_label : option string;
  history_file : option (list csv_line);
  http_log : list request;
  ticks : nat
}.

Definition set_labels (t c h : string) (w : world) : world :=
  {| city_entry := city_entry w; temp_label := t; condition_label := c;
     humidity_label := h; icon_label := icon_label w;
     history_file := history_file w; http_log := http_log w;
     ticks := ticks w |}.

Definition set_icon_label (i : option string) (w : world) : world :=
  {| city_entry := city_entry w; temp_label := temp_label w;
     condition_label := condition_label w;
     humidity_label := humidity_label w; icon_label := i;
     history_file := history_file w; http_log := http_log w;
     ticks := ticks w |}.

Definition set_history_file (f : option (list csv_line)) (w : world) : world :=
  {| city_entry := city_entry w; temp_label := temp_label w;
     condition_label := condition_label w;
     humidity_label := humidity_label w; icon_label := icon_label w;
     history_file := f; http_log := http_log w; ticks := ticks w |}.

Definition called (r : request) (w : world) : world :=
  {| city_entry := city_entry w; temp_label := temp_label w;
     condition_label := condition_label w;
     humidity_label := humidity_label w; icon_label := icon_label w;
     history_file := history_file w; http_log := http_log w ++ [r];
     ticks := S (ticks w) |}.

Definition api_key : string := "4a3390d98df844149de163210240411".

Section Script.

Context (E : Env).

(** [requests.get(url)] *)
Definition requests_get (u : string) : M world response :=
  n ← gets ticks;
  modify (called {| url := u; params := [] |});;
  match http E n {| url := u; params := [] |} with
  | HttpRaises e => raise e
  | HttpResponse r => mret r
  end.

(** [fetch_weather]; the four [None]s of the failure branch are [PNone]. *)
Definition fetch_weather (city : string)
    : M world (pyval * pyval * pyval * pyval) :=
  let url :=
    "http://api.weatherapi.com/v1/current.json?key=" +:+ api_key
      +:+ "&q=" +:+ city in
  response ← requests_get url;
  if status_code response =? 200 then
    data ← lift (json_result response);
    temperature ← lift (cur ← getitem data "current"; getitem cur "temp_c");
    condition ← lift (cur ← getitem data "current";
                      cond ← getitem cur "condition"; getitem cond "text");
    humidity ← lift (cur ← getitem data "current"; getitem cur "humidity");
    icon_url ← lift (cur ← getitem data "current";
                     cond ← getitem cur "condition"; getitem cond "icon");
    mret (temperature, condition, humidity, icon_url)
  else mret (PNone, PNone, PNone, PNone).

(** [save_to_csv]: no header, and no handler around the write. *)
Definition save_to_csv (city : string) (temperature condition humidity : pyval)
    : M world unit :=
  let data :=
    [("City", CValue (PStr city)); ("Temperature", CValue temperature);
     ("Condition", CValue condition); ("Humidity", CValue humidity)] in
  n ← gets ticks;
  match to_csv E n with
  | Some e => raise e
  | None =>
      modify (fun w =>
        set_history_file
          (Some (default [] (history_file w) ++ csv_lines data false))
          {| city_entry := city_entry w; temp_label := temp_label w;
             condition_label := condition_label w;
             humidity_label := humidity_label w; icon_label := icon_label w;
             history_file := history_file w; http_log := http_log w;
             ticks := S (ticks w) |})
  end.

Definition is_not_None (v : pyval) : bool :=
  match v with PNone => false | _ => true end.

(** [update_weather] *)
Definition update_weather : M world unit :=
  city ← gets city_entry;
  r ← fetch_weather city;
  let '(temperature, condition, humidity, icon_url) := r in
  if is_not_None temperature then
    modify (set_labels (py_str E temperature +:+ String degree_sign "C")
                       (py_str E condition)
                       (py_str E humidity +:+ "%"));;
    save_to_csv city temperature condition humidity;;
    icon_response ← requests_get ("http:" +:+ py_str E icon_url);
    match photo_image E (content icon_response) with
    | Some e => raise e
    | None => modify (set_icon_label (Some (content icon_response)))
    end
  else
    modify (set_labels "Error fetching data" "" "");;
    modify (set_icon_label None).

End Script.

End Pro.

(** ** Vocabulary of the properties *)

(** A call of [get_weather] fails when the request raises, when the status
    is one [raise_for_status] rejects, or when [.json()] raises. *)
Definition call_fails (o : http_outcome) : bool :=
  match o with
  | HttpRaises _ => true
  | HttpResponse r =>
      (400 <=? status_code r) && (status_code r <? 600)
      || match json_result r with inl _ => true | inr _ => false end
  end.

(** The fetch for [city] started when [n] calls have been made: the answer
    to the current-conditions request, and the answer the forecast request
    gets (or would get). *)
Definition fetch_fails (E : Env) (city : string) (n : nat) : bool :=
  call_fails (http E n (current_request E city))
  || call_fails (http E (S n) (forecast_request E city)).

(** The request issued as the [n]-th call raises [e], at once or in
    [.json()]. *)
Definition raised_by (E : Env) (e : exn) (n : nat) (rq : request) : Prop :=
  http E n rq = HttpRaises e
  ∨ ∃ r, http E n rq = HttpResponse r ∧ json_result r = inl e.

(** The world in which [process_weather_data] calls [save_weather_data]:
    after [update_ui] and [update_forecast_graph]. *)
Definition world_at_save (E : Env) (city : string) (weather : WeatherData)
    (data : payload) (w : world) : world :=
  (update_forecast_graph E (forecast data) (update_ui E city weather w).2).2.

(** The annotations of the [WeatherData] dataclass: [float] (which an
    int satisfies), [int] and [str]. *)
Definition is_float (v : pyval) : bool :=
  match v with PFloat _ | PInt _ => true | _ => false end.

Definition is_int (v : pyval) : bool :=
  match v with PInt _ => true | _ => false end.

Definition is_str (v : pyval) : bool :=
  match v with PStr _ => true | _ => false end.

(** The documented fields of a payload, looked up without any check of
    their values. *)
Record provider_fields := {
  pf_temp_c : pyval;
  pf_text : pyval;
  pf_humidity : pyval;
  pf_wind_kph : pyval;
  pf_pressure_mb : pyval;
  pf_feelslike_c : pyval;
  pf_icon : pyval
}.

(** [data] has the documented fields [f]: [current] and [condition] are
    objects and every documented key is present. *)
Definition has_fields (data : payload) (f : provider_fields) : Prop :=
  ∃ top cur cond : gmap string pyval,
    current data = PDict top ∧
    top !! "current" = Some (PDict cur) ∧
    cur !! "condition" = Some (PDict cond) ∧
    cur !! "temp_c" = Some (pf_temp_c f) ∧
    cond !! "text" = Some (pf_text f) ∧
    cur !! "humidity" = Some (pf_humidity f) ∧
    cur !! "wind_kph" = Some (pf_wind_kph f) ∧
    cur !! "pressure_mb" = Some (pf_pressure_mb f) ∧
    cur !! "feelslike_c" = Some (pf_feelslike_c f) ∧
    cond !! "icon" = Some (pf_icon f).

(** The fields have the shapes the data model documents. *)
Definition documented_shapes (f : provider_fields) : bool :=
  is_float (pf_temp_c f) && is_str (pf_text f) && is_int (pf_humidity f)
  && is_float (pf_wind_kph f) && is_float (pf_pressure_mb f)
  && is_float (pf_feelslike_c f) && is_str (pf_icon f).

(** The record whose fields are the provider's values. *)
Definition record_of (E : Env) (f : provider_fields) : WeatherData :=
  {| temperature := pf_temp_c f; condition := pf_text f;
     humidity := pf_humidity f; wind_speed := pf_wind_kph f;
     pressure := pf_pressure_mb f; feels_like := pf_feelslike_c f;
     icon_url := "http:" +:+ py_str E (pf_icon f) |}.

(** The header [DataManager.save_weather_data] writes. *)
Definition history_header : csv_line :=
  Header ["timestamp"; "city"; "temperature"; "condition"; "humidity";
          "wind_speed"; "pressure"].

(** The row of a record. *)
Definition history_row (t : Z) (city : string) (weather : WeatherData)
    : csv_line :=
  Row [CTimestamp t; CValue (PStr city); CValue (temperature weather);
       CValue (condition weather); CValue (humidity weather);
       CValue (wind_speed weather); CValue (pressure weather)].

(** A history file as the dashboard leaves it: the header, then rows. *)
Definition well_formed_history (f : option (list csv_line)) : Prop :=
  match f with
  | None => True
  | Some ls =>
      ∃ rows,
        ls = history_header :: rows ∧
        Forall (fun l => is_header l = false) rows
  end.

(** ** A concrete environment for the examples *)

Definition float_of_Z (z : Z) : spec_float :=
  binary_normalize 53 1024 z 0 false.

(** A stand-in for [format(v, '')], exact on [None], booleans, ints and
    whole floats. *)
Definition demo_format (v : pyval) : string :=
  match v with
  | PNone => "None"
  | PBool true => "True"
  | PBool false => "False"
  | PInt z => pretty z
  | PFloat (S754_finite s m e) =>
      (if s then "-" else "") +:+ pretty (Z.shiftl (Z.pos m) e) +:+ ".0"
  | PFloat (S754_zero _) => "0.0"
  | _ => "?"
  end.

Definition dict (l : list (string * pyval)) : pyval := PDict (list_to_map l).

Definition london_fields (hum : pyval) : pyval :=
  dict [("temp_c", PFloat (float_of_Z 15));
        ("condition",
         dict [("text", PStr "Cloudy");
               ("icon", PStr "//cdn.weatherapi.com/weather/64x64/day/119.png")]);
        ("humidity", hum);
        ("wind_kph", PFloat (float_of_Z 10));
        ("pressure_mb", PFloat (float_of_Z 1012));
        ("feelslike_c", PFloat (float_of_Z 14))].

Definition london_current : pyval :=
  dict [("location", dict [("name", PStr "London")]);
        ("current", london_fields (PInt 80))].

Definition london_forecast : pyval :=
  dict [("forecast",
         dict [("forecastday",
                PList [dict [("hour",
                  PList [dict [("time", PStr "2024-11-04 00:00");
                               ("temp_c", PFloat (float_of_Z 12))];
                         dict [("time", PStr "2024-11-04 01:00");
                               ("temp_c", PFloat (float_of_Z 11))]])]])])].

Definition ok_response (body : pyval) : response :=
  {| status_code := 200; json_result := inr body; content := "" |}.

Definition not_found : response :=
  {| status_code := 404;
     json_result := inr (dict [("error", dict [("code", PInt 1006)])]);
     content := "" |}.

Definition icon_response : response :=
  {| status_code := 200;
     json_result := inl (RequestException "JSONDecodeError");
     content := "PNG" |}.

(** [part in s] *)
Definition mentions (part s : string) : bool :=
  match index 0 part s with Some _ => true | None => false end.

(** The provider answers every request; [cur] is the body of
    current.json. *)
Definition provider (cur : pyval) (n : nat) (r : request) : http_outcome :=
  if mentions "/current.json" (url r) then HttpResponse (ok_response cur)
  else if mentions "/forecast.json" (url r)
  then HttpResponse (ok_response london_forecast)
  else HttpResponse icon_response.

Definition demo_env (h : nat → request → http_outcome)
    (csv : nat → option exn) : Env :=
  {| api_key := "4a3390d98df844149de163210240411";
     base_url := "http://api.weatherapi.com/v1";
     default_city := "London";
     http := h;
     now := fun n => 1730710800 + Z.of_nat n;
     to_csv := csv;
     py_format := demo_format;
     photo_image := fun _ => None;
     iso_valid := fun _ => true;
     matplotlib := fun _ _ => DrawOk |}.

(** Everything works. *)
Definition fair_weather : Env :=
  demo_env (provider london_current) (fun _ => None).

(** The history file cannot be written. *)
Definition read_only_disk : Env :=
  demo_env (provider london_current)
           (fun _ => Some (OSError "[Errno 30] Read-only file system")).

(** The provider sends the humidity as text. *)
Definition drifted_schema : Env :=
  demo_env (provider (dict [("current", london_fields (PStr "eighty"))]))
           (fun _ => None).

(** The provider is unreachable for the first request, fine afterwards. *)
Definition flaky_network : Env :=
  demo_env (fun n r =>
              if (n =? 0)%nat
              then HttpRaises (RequestException "ConnectionError")
              else provider london_current n r)
           (fun _ => None).

(** The provider does not know the place. *)
Definition unknown_place : Env :=
  demo_env (fun _ _ => HttpResponse not_found) (fun _ => None).

(** An idle world with these locations on the queue. *)
Definition waiting (cities : list string) : world :=
  set_update_queue
    {| items := cities; unfinished_tasks := length cities |} empty_world.

(** A world showing yesterday's weather, with one row of history. *)
Definition showing_weather : world :=
  set_history_file
    (Some [history_header;
           Row [CTimestamp 1730624400; CValue (PStr "Paris");
                CValue (PFloat (float_of_Z 9)); CValue (PStr "Mist");
                CValue (PInt 93); CValue (PFloat (float_of_Z 6));
                CValue (PFloat (float_of_Z 1020))]])
    (set_shown
       {| temp_var := "9.0" +:+ String degree_sign "C";
          condition_var := "Mist"; humidity_var := "93%";
          wind_var := "6.0 km/h"; pressure_var := "1020.0 mb";
          icon_label := Some "PNG" |}
       (waiting ["Atlantis"])).

(** The input of the entry is blank: empty, or whitespace only. *)
Definition blank (s : string) : bool :=
  forallb isspace (list_ascii_of_string s).

(** An idle dashboard, and a user who searches twice while the worker is
    busy elsewhere. *)
Definition idle : system := {| gui := empty_world; update_thread := Alive |}.

Definition two_searches_one_turn : list event :=
  [Search "London"; Search "  Paris "; WorkerTurn].

(** The payload the drifted provider sends, and its fields. *)
Definition drifted_payload : payload :=
  {| current := dict [("current", london_fields (PStr "eighty"))];
     forecast := london_forecast |}.

Definition drifted_fields : provider_fields :=
  {| pf_temp_c := PFloat (float_of_Z 15); pf_text := PStr "Cloudy";
     pf_humidity := PStr "eighty"; pf_wind_kph := PFloat (float_of_Z 10);
     pf_pressure_mb := PFloat (float_of_Z 1012);
     pf_feelslike_c := PFloat (float_of_Z 14);
     pf_icon := PStr "//cdn.weatherapi.com/weather/64x64/day/119.png" |}.

(** The number of header lines in the history file. *)
Definition header_count (f : option (list csv_line)) : nat :=
  length (filter (fun l => is_header l = true) (default [] f)).

(** The history file after the cycles have saved these records, one after
    the other. *)
Definition save_all (E : Env) (records : list (string * WeatherData))
    (w : world) : world :=
  foldl (fun w r => (save_weather_data E r.1 r.2 w).2) w records.

(** The request [Pro.fetch_weather] issues. *)
Definition pro_request (city : string) : request :=
  {| url := "http://api.weatherapi.com/v1/current.json?key=" +:+ Pro.api_key
              +:+ "&q=" +:+ city;
     params := [] |}.

(** The window of pro.py showing yesterday's weather. *)
Definition pro_showing : Pro.world :=
  {| Pro.city_entry := "Atlantis";
     Pro.temp_label := "9.0" +:+ String degree_sign "C";
     Pro.condition_label := "Mist"; Pro.humidity_label := "93%";
     Pro.icon_label := Some "PNG";
     Pro.history_file :=
       Some [Row [CValue (PStr "Paris"); CValue (PFloat (float_of_Z 9));
                  CValue (PStr "Mist"); CValue (PInt 93)]];
     Pro.http_log := []; Pro.ticks := 0 |}.

(** The window of pro.py at start, before any history exists. *)
Definition pro_fresh : Pro.world :=
  {| Pro.city_entry := "London"; Pro.temp_label := "";
     Pro.condition_label := ""; Pro.humidity_label := "";
     Pro.icon_label := None; Pro.history_file := None;
     Pro.http_log := []; Pro.ticks := 0 |}.

(** The record of the London scenario. *)
Definition london_record : WeatherData :=
  {| temperature := PFloat (float_of_Z 15); condition := PStr "Cloudy";
     humidity := PInt 80; wind_speed := PFloat (float_of_Z 10);
     pressure := PFloat (float_of_Z 1012);
     feels_like := PFloat (float_of_Z 14);
     icon_url := "http://cdn.weatherapi.com/weather/64x64/day/119.png" |}.

(** ** Tactics: running the monad *)

Ltac unfold_monad :=
  unfold try_except, mbind, M_bind, mret, M_ret, modify, gets, lift, raise,
    block, Exception in *.

Ltac step_oracle :=
  match goal with
  | |- context [match http ?E ?n ?r with _ => _ end] =>
      destruct (http E n r) eqn:?
  | |- context [match json_result ?r with _ => _ end] =>
      destruct (json_result r) eqn:?
  | |- context [if ?b then _ else _] => destruct b eqn:?
  | |- context [match to_csv ?E ?n with _ => _ end] =>
      destruct (to_csv E n) eqn:?
  | |- context [match photo_image ?E ?c with _ => _ end] =>
      destruct (photo_image E c) eqn:?
  | |- context [match matplotlib ?E ?n ?p with _ => _ end] =>
      destruct (matplotlib E n p) eqn:?
  end.

(** ** Vocabulary of the further properties *)

(** The points [update_forecast_graph] extracts before it draws: the
    three lookups of its [try] block, in order. *)
Definition forecast_series (E : Env) (forecast_data : pyval) : exn + series :=
  hours ← forecast_hours forecast_data;
  times ← hour_times E hours;
  temps ← hour_temps hours;
  mret (zip times temps).

(** The hour entry [hour] of a forecast carries the point [p]: its
    ['time'] is a string [datetime.fromisoformat] accepts and it has a
    ['temp_c']. *)
Definition hour_entry (E : Env) (hour : pyval) (p : string * pyval) : Prop :=
  getitem hour "time" = inr (PStr p.1)
  ∧ iso_valid E p.1 = true
  ∧ getitem hour "temp_c" = inr p.2.

(** The hour entry cannot be plotted: a lookup or the parse of its time
    raises. *)
Definition bad_hour (E : Env) (hour : pyval) : Prop :=
  (∃ e, (t ← getitem hour "time"; fromisoformat E t) = inl e)
  ∨ (∃ e, getitem hour "temp_c" = inl e).

(** The icon server is down: every request but the provider's raises. *)
Definition icon_down : Env :=
  demo_env (fun n r =>
              if mentions ".json" (url r) then provider london_current n r
              else HttpRaises (RequestException "ConnectionError"))
           (fun _ => None).

(** A forecast whose second hour has no temperature. *)
Definition patchy_forecast : pyval :=
  dict [("forecast",
         dict [("forecastday",
                PList [dict [("hour",
                  PList [dict [("time", PStr "2024-11-04 00:00");
                               ("temp_c", PFloat (float_of_Z 12))];
                         dict [("time", PStr "2024-11-04 01:00")]])]])])].

(** The hours of [london_forecast] and the points they carry. *)
Definition london_hours : list pyval :=
  [dict [("time", PStr "2024-11-04 00:00");
         ("temp_c", PFloat (float_of_Z 12))];
   dict [("time", PStr "2024-11-04 01:00");
         ("temp_c", PFloat (float_of_Z 11))]].

Definition london_points : series :=
  [("2024-11-04 00:00", PFloat (float_of_Z 12));
   ("2024-11-04 01:00", PFloat (float_of_Z 11))].

(** matplotlib cannot plot. *)
Definition broken_plot : Env :=
  {| api_key := api_key fair_weather; base_url := base_url fair_weather;
     default_city := default_city fair_weather; http := http fair_weather;
     now := now fair_weather; to_csv := to_csv fair_weather;
     py_format := py_format fair_weather;
     photo_image := photo_image fair_weather;
     iso_valid := iso_valid fair_weather;
     matplotlib := fun _ _ => PlotRaises (ValueError "could not convert") |}.

(** [Queue.task_done] has not been called more often than [Queue.get]:
    the counter covers the items still queued. *)
Definition queue_ok (w : world) : Prop :=
  (length (items (update_queue w)) ≤ unfinished_tasks (update_queue w))%nat.

(** The status a cycle for [city] ends with, given what [get_weather]
    returned. *)
Definition cycle_status (E : Env) (city : string) (r : option payload)
    : string :=
  match r with
  | None => "Failed to fetch weather data"
  | Some data =>
      match make_weather E data with
      | inr _ => "Weather updated for " +:+ city
      | inl _ => "Failed to process weather data"
      end
  end.

(** A location as [update_weather] queues it: stripped and not empty. *)
Definition stripped (city : string) : Prop :=
  strip city = city ∧ str_truthy city = true.

(** The provider answers 200 with a null temperature. *)
Definition null_temperature : Env :=
  demo_env
    (provider
       (dict [("current",
               dict [("temp_c", PNone);
                     ("condition",
                      dict [("text", PStr "Cloudy");
                            ("icon", PStr "//cdn.weatherapi.com/119.png")]);
                     ("humidity", PInt 80)])]))
    (fun _ => None).

(** ** pro.py: the periodic refresh *)

Module ProTimer.

(** The window of pro.py and the delays (in milliseconds) of the
    [root.after] callbacks armed so far. *)
Record timed := {
  window : Pro.world;
  after_calls : list Z
}.

(** A computation on the window, run inside the timed state. *)
Definition on_window {A} (m : M Pro.world A) : M timed A :=
  fun s =>
    let '(r, pw) := m (window s) in
    (r, {| window := pw; after_calls := after_calls s |}).

(** [root.after(ms, update_weather_periodically)] *)
Definition root_after (ms : Z) : M timed unit :=
  modify (fun s =>
    {| window := window s; after_calls := after_calls s ++ [ms] |}).

(** [update_weather_periodically] *)
Definition update_weather_periodically (E : Env) : M timed unit :=
  on_window (Pro.update_weather E);;
  root_after 600000.

End ProTimer.

(** A requests older than 2.27: a body that does not parse makes
    [.json()] raise a [ValueError], which is no [RequestException]. *)
Definition old_requests : Env :=
  demo_env (fun _ _ =>
              HttpResponse
                {| status_code := 200;
                   json_result := inl (ValueError "Expecting value");
                   content := "<html>" |})
           (fun _ => None).

(** ** Tk writes that can raise

    The worker thread is not the thread of the main loop, and Tk can
    refuse a call made from it (a [RuntimeError] while the main loop is
    not running, a [TclError] once the window is gone).  None of the Tk
    writes of [Weatherdashboard.py] is guarded on its own: the ones
    inside a [try] are caught by its handler, and the handlers of
    [process_weather_data] and of [update_worker] end with a write to
    [status_var] themselves.  [Module Tk] repeats the functions that the
    worker thread runs and that write to Tk, each write asking an oracle
    first; the functions that do not touch Tk ([get_weather],
    [update_forecast_graph], whose drawing is matplotlib's oracle,
    [save_weather_data], the queue) are the ones above. *)

Inductive tk_target :=
  | StatusVar
  | TempVar
  | ConditionVar
  | HumidityVar
  | WindVar
  | PressureVar
  | IconLabel.

(** [Some e]: the write raises [e].  The answer depends on the widget,
    on the number of outside calls and of status writes made so far, and
    on the text written; no two writes of a run share all three, so every
    write gets an answer of its own. *)
Definition tk_oracle : Type := tk_target → nat → string → option exn.

(** Tk accepts every write. *)
Definition tk_fine (tk : tk_oracle) : Prop :=
  ∀ target n text, tk target n text = None.

Definition with_temp_var (v : string) (d : display) : display :=
  {| temp_var := v; condition_var := condition_var d;
     humidity_var := humidity_var d; wind_var := wind_var d;
     pressure_var := pressure_var d; icon_label := icon_label d |}.

Definition with_condition_var (v : string) (d : display) : display :=
  {| temp_var := temp_var d; condition_var := v;
     humidity_var := humidity_var d; wind_var := wind_var d;
     pressure_var := pressure_var d; icon_label := icon_label d |}.

Definition with_humidity_var (v : string) (d : display) : display :=
  {| temp_var := temp_var d; condition_var := condition_var d;
     humidity_var := v; wind_var := wind_var d;
     pressure_var := pressure_var d; icon_label := icon_label d |}.

Definition with_wind_var (v : string) (d : display) : display :=
  {| temp_var := temp_var d; condition_var := condition_var d;
     humidity_var := humidity_var d; wind_var := v;
     pressure_var := pressure_var d; icon_label := icon_label d |}.

Definition with_pressure_var (v : string) (d : display) : display :=
  {| temp_var := temp_var d; condition_var := condition_var d;
     humidity_var := humidity_var d; wind_var := wind_var d;
     pressure_var := v; icon_label := icon_label d |}.

Module Tk.

Section Worker.

Context (E : Env) (tk : tk_oracle).

(** A write to a Tk variable or widget: it raises, leaving the world as
    it is, or it stores. *)
Definition write (target : tk_target) (text : string) (store : world → world)
    : M world unit :=
  fun w =>
    match tk target (ticks w + length (status_log w))%nat text with
    | Some e => (Raise e, w)
    | None => (Ret tt, store w)
    end.

Definition show (f : display → display) (w : world) : world :=
  set_shown (f (shown w)) w.

(** [self.status_var.set(text)] *)
Definition status_var_set (text : string) : M world unit :=
  write StatusVar text (set_status text).

(** [WeatherDashboard.update_ui]: the five [StringVar.set] calls stand
    before the [try], the [icon_label.configure] inside it. *)
Definition update_ui (city : string) (weather : WeatherData) : M world unit :=
  (let text := py_str E (temperature weather) +:+ String degree_sign "C" in
   write TempVar text (show (with_temp_var text)));;
  (let text := py_str E (condition weather) in
   write ConditionVar text (show (with_condition_var text)));;
  (let text := py_str E (humidity weather) +:+ "%" in
   write HumidityVar text (show (with_humidity_var text)));;
  (let text := py_str E (wind_speed weather) +:+ " km/h" in
   write WindVar text (show (with_wind_var text)));;
  (let text := py_str E (pressure weather) +:+ " mb" in
   write PressureVar text (show (with_pressure_var text)));;
  try_except Exception
    (response ← http_get E (icon_url weather) [];
     match photo_image E (content response) with
     | Some e => raise e
     | None =>
         write IconLabel (content response) (show (show_icon (content response)))
     end)
    (fun e => logger_error ("Failed to update weather icon: " +:+ exn_str e)).

(** [WeatherDashboard.process_weather_data] *)
Definition process_weather_data (city : string) (data : payload)
    : M world unit :=
  try_except Exception
    (weather ← lift (make_weather E data);
     update_ui city weather;;
     update_forecast_graph E (forecast data);;
     save_weather_data E city weather;;
     status_var_set ("Weather updated for " +:+ city))
    (fun e =>
       logger_error ("Failed to process weather data: " +:+ exn_str e);;
       status_var_set "Failed to process weather data").

(** The body of the [while True:] loop of [update_worker]. *)
Definition update_worker_body : M world unit :=
  try_except Exception
    (city ← queue_get;
     status_var_set ("Fetching weather data for " +:+ city +:+ "...");;
     weather_data ← get_weather E city;
     match weather_data with
     | Some data => process_weather_data city data
     | None => status_var_set "Failed to fetch weather data"
     end;;
     task_done)
    (fun e =>
       logger_error ("Update worker error: " +:+ exn_str e);;
       status_var_set "An error occurred").

(** [WeatherDashboard.update_worker], the loop unrolled [fuel] times:
    [Ret] when still looping, [Block] when waiting in [Queue.get],
    [Raise] when an exception left the loop and the thread is over. *)
Fixpoint update_worker (fuel : nat) : M world unit :=
  match fuel with
  | O => mret tt
  | S n => update_worker_body;; update_worker n
  end.

(** The two threads, as in [step]: the search runs on the thread of the
    main loop, the turn on the worker thread. *)
Definition step (s : system) (ev : event) : system :=
  match ev with
  | Search text =>
      {| gui := (update_weather (set_city_var text (gui s))).2;
         update_thread := update_thread s |}
  | WorkerTurn =>
      match update_thread s with
      | Dead _ => s
      | Alive =>
          match update_worker_body (gui s) with
          | (Ret _, w) => {| gui := w; update_thread := Alive |}
          | (Raise e, w) => {| gui := w; update_thread := Dead e |}
          | (Block, _) => s
          end
      end
  end.

Definition run (evs : list event) (s : system) : system :=
  foldl step s evs.

End Worker.

End Tk.



(** Tk refuses every write but the one of the worker's handler. *)
Definition tk_last_resort : tk_oracle :=
  fun _ _ text =>
    if String.eqb text "An error occurred" then None
    else Some (RuntimeError "main thread is not in main loop").

(** Tk accepts everything. *)
Definition tk_up : tk_oracle := fun _ _ _ => None.

(** ** Start-up *)

(** The events of [WeatherDashboard.__init__] once the worker thread is
    started (line 151): the worker may take any number of turns before
    [load_initial_data] (line 154) has put the default city on the queue.
    [load_initial_data] sets the entry and calls [update_weather], which
    is a search for the default city; a turn of the worker between the
    two finds the queue as empty as before. *)
Definition startup (E : Env) (turns_before : nat) : list event :=
  repeat WorkerTurn turns_before ++ [Search (default_city E)].

(** ** The text of the history file *)

Definition double_quote : ascii := "034"%char.

(** The characters that make [csv.writer] quote a field. *)
Definition csv_special (c : ascii) : bool :=
  bool_decide (c ∈ [","%char; double_quote; "010"%char; "013"%char]).

Fixpoint csv_escape (s : string) : string :=
  match s with
  | EmptyString => EmptyString
  | String c s' =>
      if Ascii.eqb c double_quote
      then String double_quote (String double_quote (csv_escape s'))
      else String c (csv_escape s')
  end.

(** The text [DataFrame.to_csv] writes for one value of a row of several
    columns, with the defaults the two programs use ([na_rep=''],
    [QUOTE_MINIMAL]): nothing for a missing value ([None], NaN); a [str]
    as it is, between quotes when it holds a comma, a quote or a line
    break; [str(v)] for the rest. *)
Definition csv_field (E : Env) (v : pyval) : string :=
  match v with
  | PNone => ""
  | PFloat S754_nan => ""
  | PStr s =>
      if existsb csv_special (list_ascii_of_string s)
      then String double_quote (csv_escape s) +:+ String double_quote ""
      else s
  | _ => py_format E v
  end.

(** The text of the five weather columns of a history row. *)
Definition csv_weather_fields (E : Env) (weather : WeatherData) : list string :=
  csv_field E <$> [temperature weather; condition weather; humidity weather;
                   wind_speed weather; pressure weather].

(** The London record with another condition. *)
Definition london_with_condition (c : pyval) : WeatherData :=
  {| temperature := temperature london_record; condition := c;
     humidity := humidity london_record;
     wind_speed := wind_speed london_record;
     pressure := pressure london_record;
     feels_like := feels_like london_record;
     icon_url := icon_url london_record |}.

(** The base of the history file for an append: the lines it has, or the
    header when it does not exist. *)
Definition history_base (f : option (list csv_line)) : list csv_line :=
  match f with
  | None => [history_header]
  | Some ls => ls
  end.

(* ================================================================= *)
(** * Properties *)

Example demo_cycle_status :
  status_log (update_worker_body fair_weather (waiting ["London"])).2
  = ["Fetching weather data for London..."; "Weather updated for London"].
Proof. vm_compute. reflexivity. Qed.

(** *** get_weather *)

Section GetWeather.

Context (E : Env) (city : string) (w : world).

Lemma get_weather_run :
  ∃ r w',
    get_weather E city w = (r, w') ∧
    r ≠ Block ∧
    (∀ e, r = Raise e →
       is_RequestException e = false ∧
       (raised_by E e (ticks w) (current_request E city)
        ∨ raised_by E e (S (ticks w)) (forecast_request E city))) ∧
    ((∃ p, r = Ret (Some p)) ↔ fetch_fails E city (ticks w) = false) ∧
    (∀ p, r = Ret (Some p) →
       ∃ r1 r2,
         http E (ticks w) (current_request E city) = HttpResponse r1 ∧
         http E (S (ticks w)) (forecast_request E city) = HttpResponse r2 ∧
         json_result r1 = inr (current p) ∧
         json_result r2 = inr (forecast p)) ∧
    (http_log w' =
       http_log w ++ [current_request E city; forecast_request E city] ∨
     (∃ e, http E (ticks w) (current_request E city) = HttpRaises e) ∧
     http_log w' = http_log w ++ [current_request E city]) ∧
    city_var w' = city_var w ∧ shown w' = shown w ∧
    status_var w' = status_var w ∧ ax_plot w' = ax_plot w ∧
    update_queue w' = update_queue w ∧
    history_file w' = history_file w ∧
    status_log w' = status_log w ∧ warnings w' = warnings w.
Proof.
  unfold get_weather, http_get, raise_for_status, response_json, logger_error,
    tick, fetch_fails, call_fails, raised_by.
  unfold current_request, forecast_request.
  unfold_monad. simpl.
  repeat (step_oracle; simpl).
  all: eexists _, _; split; [reflexivity|]; simpl.
  all: rewrite <- ?app_assoc, ?orb_true_r, ?orb_false_r; simpl.
  all: repeat split; try congruence; eauto.
  all: try (intros [? ?]; congruence).
  all: try (intros ? [= <-]; eauto 8).
  all: try (simplify_eq; eauto 8).
Qed.

End GetWeather.

(** *** The steps of process_weather_data *)

Section Steps.

Context (E : Env) (city : string).

Lemma update_ui_run weather w :
  ∃ w',
    update_ui E city weather w = (Ret tt, w') ∧
    http_log w' = http_log w ++ [icon_request (icon_url weather)] ∧
    (shown w' = show_weather E weather (shown w) ∨
     ∃ photo, shown w' = show_icon photo (show_weather E weather (shown w))) ∧
    city_var w' = city_var w ∧ status_var w' = status_var w ∧
    ax_plot w' = ax_plot w ∧ update_queue w' = update_queue w ∧
    history_file w' = history_file w ∧ status_log w' = status_log w ∧
    warnings w' = warnings w.
Proof.
  unfold update_ui, http_get, logger_error, tick, icon_request.
  unfold_monad. simpl.
  repeat (step_oracle; simpl).
  all: eexists; split; [reflexivity|]; simpl.
  all: repeat split; eauto.
Qed.

Lemma draw_forecast_run points w :
  ∃ r w',
    draw_forecast E points w = (r, w') ∧ r ≠ Block ∧
    city_var w' = city_var w ∧ shown w' = shown w ∧
    status_var w' = status_var w ∧ update_queue w' = update_queue w ∧
    history_file w' = history_file w ∧ http_log w' = http_log w ∧
    status_log w' = status_log w ∧ warnings w' = warnings w ∧
    error_log w' = error_log w.
Proof.
  unfold draw_forecast, tick. unfold_monad. simpl.
  step_oracle; simpl.
  all: eexists _, _; split; [reflexivity|]; simpl.
  all: repeat split; eauto; congruence.
Qed.

Lemma update_forecast_graph_run forecast_data w :
  ∃ w',
    update_forecast_graph E forecast_data w = (Ret tt, w') ∧
    city_var w' = city_var w ∧ shown w' = shown w ∧
    status_var w' = status_var w ∧ update_queue w' = update_queue w ∧
    history_file w' = history_file w ∧ http_log w' = http_log w ∧
    status_log w' = status_log w ∧ warnings w' = warnings w.
Proof.
  unfold update_forecast_graph, logger_error.
  unfold try_except, Exception, mbind, M_bind, lift, mret, M_ret, raise, modify.
  destruct (forecast_hours forecast_data) as [e|hours]; simpl.
  { eexists; split; [reflexivity|]; simpl. repeat split; eauto. }
  destruct (hour_times E hours) as [e|times]; simpl.
  { eexists; split; [reflexivity|]; simpl. repeat split; eauto. }
  destruct (hour_temps hours) as [e|temps]; simpl.
  { eexists; split; [reflexivity|]; simpl. repeat split; eauto. }
  destruct (draw_forecast_run (zip times temps) w)
    as (r & w' & -> & Hr & ? & ? & ? & ? & ? & ? & ? & ? & ?).
  destruct r as [[]|e|]; [| |congruence].
  all: eexists; split; [reflexivity|]; simpl.
  all: repeat split; eauto.
Qed.

Lemma save_weather_data_run weather w :
  ∃ w',
    save_weather_data E city weather w = (Ret tt, w') ∧
    match to_csv E (S (ticks w)) with
    | Some e =>
        history_file w' = history_file w ∧
        error_log w' =
          error_log w ++ ["Failed to save weather data: " +:+ exn_str e]
    | None =>
        history_file w' =
          Some (default [] (history_file w)
                ++ csv_lines (history_columns (now E (ticks w)) city weather)
                     (negb (bool_decide (is_Some (history_file w))))) ∧
        error_log w' = error_log w
    end ∧
    city_var w' = city_var w ∧ shown w' = shown w ∧
    status_var w' = status_var w ∧ ax_plot w' = ax_plot w ∧
    update_queue w' = update_queue w ∧ http_log w' = http_log w ∧
    status_log w' = status_log w ∧ warnings w' = warnings w.
Proof.
  unfold save_weather_data, datetime_now, history_file_exists, df_to_csv,
    logger_error, tick.
  unfold_monad. simpl.
  destruct (to_csv E (S (ticks w))) eqn:Hcsv; simpl.
  all: eexists; split; [reflexivity|]; simpl.
  all: repeat split; eauto.
Qed.

(** When the record cannot be built nothing is shown or saved: the handler
    logs, and sets the status. *)
Lemma process_weather_data_failure data e w :
  make_weather E data = inl e →
  process_weather_data E city data w =
    (Ret tt,
     set_status "Failed to process weather data"
       (add_error_log ("Failed to process weather data: " +:+ exn_str e) w)).
Proof.
  intros He. unfold process_weather_data, logger_error, status_var_set.
  unfold_monad. rewrite He. reflexivity.
Qed.

(** When the record is built the three steps run to their end, whatever
    they meet, and the status reports the update. *)
Lemma process_weather_data_success data weather w :
  make_weather E data = inr weather →
  process_weather_data E city data w =
    (Ret tt,
     set_status ("Weather updated for " +:+ city)
       (save_weather_data E city weather
          (world_at_save E city weather data w)).2).
Proof.
  intros Hw. unfold process_weather_data, world_at_save, status_var_set.
  unfold try_except at 1. unfold mbind, M_bind at 1 2 3 4. unfold lift.
  rewrite Hw. unfold mret at 1, M_ret at 1.
  destruct (update_ui_run weather w) as (w1 & -> & _). simpl.
  destruct (update_forecast_graph_run (forecast data) w1) as (w2 & -> & _).
  simpl.
  destruct (save_weather_data_run weather w2) as (w3 & -> & _).
  reflexivity.
Qed.

End Steps.

Section Cycle.

Context (E : Env).

Lemma world_at_save_facts city weather data w :
  let w2 := world_at_save E city weather data w in
  http_log w2 = http_log w ++ [icon_request (icon_url weather)] ∧
  (shown w2 = show_weather E weather (shown w) ∨
   ∃ photo, shown w2 = show_icon photo (show_weather E weather (shown w))) ∧
  city_var w2 = city_var w ∧ status_var w2 = status_var w ∧
  update_queue w2 = update_queue w ∧ history_file w2 = history_file w ∧
  status_log w2 = status_log w ∧ warnings w2 = warnings w.
Proof.
  unfold world_at_save.
  destruct (update_ui_run E city weather w)
    as (w1 & -> & Hl & Hs & ? & ? & ? & ? & ? & ? & ?); simpl.
  destruct (update_forecast_graph_run E (forecast data) w1)
    as (w2 & -> & ? & Hs2 & ? & ? & ? & ? & ? & ?); simpl.
  rewrite Hs2. repeat split; congruence.
Qed.

(** One call of [process_weather_data]: it returns, leaves the queue
    alone, issues at most the icon request and writes one final status. *)
Lemma process_weather_data_run city data w :
  ∃ w' st,
    process_weather_data E city data w = (Ret tt, w') ∧
    update_queue w' = update_queue w ∧ city_var w' = city_var w ∧
    warnings w' = warnings w ∧
    (http_log w' = http_log w ∨
     ∃ u, http_log w' = http_log w ++ [icon_request u]) ∧
    status_log w' = status_log w ++ [st] ∧ status_var w' = st ∧
    final_status city st.
Proof.
  destruct (make_weather E data) as [e|weather] eqn:Hw.
  - rewrite (process_weather_data_failure E city data e w Hw).
    eexists _, _; split; [reflexivity|]; simpl.
    repeat split; eauto. right. reflexivity.
  - rewrite (process_weather_data_success E city data weather w Hw).
    destruct (world_at_save_facts city weather data w)
      as (Hl & _ & ? & ? & ? & ? & ? & ?).
    destruct (save_weather_data_run E city weather
                (world_at_save E city weather data w))
      as (w3 & -> & _ & ? & ? & ? & ? & ? & Hl3 & ? & ?).
    eexists _, _; split; [reflexivity|]; simpl.
    repeat split; try congruence.
    + right. eexists. rewrite Hl3. exact Hl.
    + left. reflexivity.
Qed.

Lemma fetch_city_current city : fetch_city (current_request E city) = Some city.
Proof. reflexivity. Qed.

Lemma fetch_city_forecast city : fetch_city (forecast_request E city) = None.
Proof. reflexivity. Qed.

Lemma fetch_city_icon u : fetch_city (icon_request u) = None.
Proof. reflexivity. Qed.

Lemma cycle_requests_fetch_city city block :
  cycle_requests E city block → omap fetch_city block = [city].
Proof. destruct 1; reflexivity. Qed.

(** The requests of one [get_weather] call, read off its result. *)
Lemma get_weather_requests city w :
  ∃ r w' b,
    get_weather E city w = (r, w') ∧ r ≠ Block ∧
    http_log w' = http_log w ++ b ∧
    (b = [current_request E city]
     ∨ b = [current_request E city; forecast_request E city]) ∧
    ((∃ p, r = Ret (Some p)) →
     b = [current_request E city; forecast_request E city]) ∧
    city_var w' = city_var w ∧ shown w' = shown w ∧
    status_var w' = status_var w ∧ ax_plot w' = ax_plot w ∧
    update_queue w' = update_queue w ∧
    history_file w' = history_file w ∧
    status_log w' = status_log w ∧ warnings w' = warnings w.
Proof.
  destruct (get_weather_run E city w)
    as (r & w' & Hrun & Hnb & _ & _ & Hsome & Hlog & Hframe).
  simpl in Hsome, Hlog.
  destruct Hlog as [Hl|[[e He] Hl]].
  - exists r, w', [current_request E city; forecast_request E city].
    repeat split; try tauto.
  - exists r, w', [current_request E city].
    repeat split; try tauto.
    intros [p ->]. destruct (Hsome p eq_refl) as (r1 & _ & Hr1 & _).
    congruence.
Qed.

(** One iteration of the worker on a non-empty queue.  Whatever the
    outside world does the iteration ends normally, has taken the oldest
    item, has called the provider for it and has written its statuses. *)
Lemma update_worker_body_cycle w city rest :
  items (update_queue w) = city :: rest →
  ∃ w' block st,
    update_worker_body E w = (Ret tt, w') ∧
    items (update_queue w') = rest ∧
    (pred (unfinished_tasks (update_queue w))
       ≤ unfinished_tasks (update_queue w')
       ≤ unfinished_tasks (update_queue w))%nat ∧
    http_log w' = http_log w ++ block ∧ cycle_requests E city block ∧
    final_status city st ∧
    (status_log w' =
       status_log w ++ ["Fetching weather data for " +:+ city +:+ "..."; st]
     ∨ unfinished_tasks (update_queue w) = 0%nat ∧
       status_log w' =
         status_log w ++ ["Fetching weather data for " +:+ city +:+ "..."; st;
                          "An error occurred"]) ∧
    city_var w' = city_var w ∧ warnings w' = warnings w.
Proof.
  intros Hq. unfold update_worker_body.
  unfold try_except, mbind, M_bind. unfold queue_get at 1. rewrite Hq.
  unfold status_var_set at 1, modify at 1.
  set (w1 := set_status _ (set_update_queue _ w)).
  destruct (get_weather_requests city w1)
    as (r & w2 & b & -> & Hnb & Hl2 & Hb & Hsome
        & Hc2 & _ & _ & _ & Hq2 & _ & Hs2 & Hw2).
  simpl in Hl2, Hc2, Hq2, Hs2, Hw2.
  destruct r as [[data|]|e|]; [| | |congruence].
  - (* a payload: it is processed *)
    rewrite (Hsome (ex_intro _ data eq_refl)) in Hl2.
    destruct (process_weather_data_run city data w2)
      as (w3 & st & -> & Hq3 & Hc3 & Hw3 & Hl3 & Hs3 & _ & Hfin).
    assert (Hreq : ∃ b3, http_log w3 = http_log w ++ b3
                         ∧ cycle_requests E city b3).
    { destruct Hl3 as [->|[u ->]]; rewrite Hl2.
      - eexists; split; [reflexivity|constructor].
      - rewrite <- app_assoc. eexists; split; [reflexivity|].
        apply cycle_with_icon. }
    destruct Hreq as (b3 & Hlog3 & Hcyc).
    unfold task_done. rewrite Hq3, Hq2. simpl.
    destruct (unfinished_tasks (update_queue w)) as [|u] eqn:Hu.
    + unfold Exception, logger_error, status_var_set, modify. simpl.
      eexists _, b3, st. split; [reflexivity|]. simpl.
      rewrite Hq3, Hq2, Hs3, Hs2, Hc3, Hc2, Hw3, Hw2. simpl.
      rewrite <- !app_assoc. simpl. repeat split; eauto.
    + eexists _, b3, st. split; [reflexivity|]. simpl.
      rewrite Hs3, Hs2, Hc3, Hc2, Hw3, Hw2. simpl.
      rewrite <- !app_assoc. simpl. repeat split; eauto; lia.
  - (* no payload: the fetch failed *)
    assert (Hcyc : cycle_requests E city b).
    { destruct Hb as [->| ->]; constructor. }
    unfold status_var_set, modify, task_done. simpl. rewrite Hq2. simpl.
    destruct (unfinished_tasks (update_queue w)) as [|u] eqn:Hu.
    + unfold Exception, logger_error, modify. simpl.
      eexists _, b, "Failed to fetch weather data".
      split; [reflexivity|]. simpl.
      rewrite Hq2, Hs2, Hc2, Hw2. simpl.
      rewrite <- !app_assoc. simpl.
      repeat split; eauto. right; reflexivity.
    + eexists _, b, "Failed to fetch weather data".
      split; [reflexivity|]. simpl.
      rewrite Hs2, Hc2, Hw2. simpl.
      rewrite <- !app_assoc. simpl.
      repeat split; eauto; try lia. right; reflexivity.
  - (* an exception that get_weather does not handle *)
    assert (Hcyc : cycle_requests E city b).
    { destruct Hb as [->| ->]; constructor. }
    unfold Exception, logger_error, status_var_set, modify. simpl.
    eexists _, b, "An error occurred".
    split; [reflexivity|]. simpl.
    rewrite Hq2, Hs2, Hc2, Hw2. simpl.
    rewrite <- !app_assoc. simpl.
    repeat split; eauto; try lia. right; reflexivity.
Qed.

(** On an empty queue the worker waits in [Queue.get]. *)
Lemma update_worker_body_waits w :
  items (update_queue w) = [] → update_worker_body E w = (Block, w).
Proof.
  intros Hq. unfold update_worker_body, try_except, mbind, M_bind, queue_get.
  rewrite Hq. reflexivity.
Qed.

End Cycle.

(** *** The worker loop *)

Lemma fetch_calls_app (w w' : world) (b : list request) :
  http_log w' = http_log w ++ b →
  fetch_calls w' = fetch_calls w ++ omap fetch_city b.
Proof. unfold fetch_calls. intros ->. apply omap_app. Qed.

(** With Tk writes as plain stores: whatever the provider, Pillow,
    matplotlib and the file system do, no exception leaves the loop of
    [update_worker]; the worker has called the provider for every request
    it took, in the order of the queue, and it waits exactly when it ran
    out of requests.  (A Tk that can refuse a write is the matter of
    [Module Tk], below.) *)
Theorem update_worker_survives_every_failure (E : Env) (fuel : nat) (w : world) :
  ∃ r w',
    update_worker E fuel w = (r, w') ∧
    (r = Ret tt ∨ r = Block) ∧
    (r = Block ↔ (length (items (update_queue w)) < fuel)%nat) ∧
    fetch_calls w' = fetch_calls w ++ take fuel (items (update_queue w)) ∧
    items (update_queue w') = drop fuel (items (update_queue w)).
Proof.
  revert w. induction fuel as [|fuel IH]; intros w.
  - exists (Ret tt), w. simpl. rewrite app_nil_r, drop_0.
    repeat split; eauto; try lia. discriminate.
  - simpl. unfold mbind, M_bind.
    destruct (items (update_queue w)) as [|city rest] eqn:Hq.
    + rewrite (update_worker_body_waits E w Hq).
      exists Block, w. rewrite Hq, app_nil_r. simpl.
      repeat split; eauto; lia.
    + destruct (update_worker_body_cycle E w city rest Hq)
        as (w1 & b & st & -> & Hq1 & _ & Hl1 & Hcyc & _).
      destruct (IH w1) as (r & w' & -> & Hr & Hblock & Hf & Hi).
      exists r, w'. rewrite Hq1 in Hblock, Hf, Hi.
      rewrite (fetch_calls_app w w1 b Hl1) in Hf.
      rewrite (cycle_requests_fetch_city E city b Hcyc) in Hf.
      rewrite <- app_assoc in Hf. simpl.
      repeat split; eauto.
      * intros H. apply Hblock in H. lia.
      * intros H. apply Hblock. lia.
Qed.

(** *** The two threads *)

Section Threads.

Context (E : Env).

(** What one event does to the queue and to the request log. *)
Lemma step_accounts s ev :
  update_thread s = Alive →
  let s' := step E s ev in
  update_thread s' = Alive ∧
  ∃ cities blocks,
    Forall2 (cycle_requests E) cities blocks ∧
    http_log (gui s') = http_log (gui s) ++ concat blocks ∧
    cities ++ items (update_queue (gui s'))
      = items (update_queue (gui s)) ++ enqueued [ev].
Proof.
  intros Ha. destruct ev as [text|]; simpl.
  - split; [exact Ha|]. exists [], []. split; [constructor|].
    unfold update_weather, queue_put. unfold_monad. simpl.
    destruct (str_truthy (strip text)); simpl; rewrite ?app_nil_r; eauto.
  - rewrite Ha.
    destruct (items (update_queue (gui s))) as [|city rest] eqn:Hq.
    + rewrite (update_worker_body_waits E _ Hq).
      split; [exact Ha|]. exists [], []. split; [constructor|].
      rewrite Hq, app_nil_r. eauto.
    + destruct (update_worker_body_cycle E _ city rest Hq)
        as (w1 & b & st & -> & Hq1 & _ & Hl1 & Hcyc & _).
      simpl. split; [reflexivity|]. exists [city], [b].
      split; [repeat constructor; exact Hcyc|].
      simpl. rewrite !app_nil_r, Hq1. eauto.
Qed.

Lemma enqueued_cons ev evs : enqueued (ev :: evs) = enqueued [ev] ++ enqueued evs.
Proof.
  unfold enqueued. simpl.
  destruct (match ev with Search _ => _ | _ => _ end); reflexivity.
Qed.

Lemma run_accounts evs s :
  update_thread s = Alive →
  let s' := run E evs s in
  update_thread s' = Alive ∧
  ∃ cities blocks,
    Forall2 (cycle_requests E) cities blocks ∧
    http_log (gui s') = http_log (gui s) ++ concat blocks ∧
    cities ++ items (update_queue (gui s'))
      = items (update_queue (gui s)) ++ enqueued evs.
Proof.
  revert s. induction evs as [|ev evs IH]; intros s Ha; cbv zeta.
  - split; [exact Ha|]. exists [], []. split; [constructor|].
    simpl. rewrite !app_nil_r. eauto.
  - destruct (step_accounts s ev Ha) as (Ha1 & c1 & b1 & Hf1 & Hl1 & Hq1).
    destruct (IH (step E s ev) Ha1) as (Ha2 & c2 & b2 & Hf2 & Hl2 & Hq2).
    change (run E (ev :: evs) s) with (run E evs (step E s ev)).
    split; [exact Ha2|]. exists (c1 ++ c2), (b1 ++ b2).
    split; [apply Forall2_app; assumption|]. split.
    + rewrite Hl2, Hl1, concat_app, app_assoc. reflexivity.
    + rewrite <- app_assoc, Hq2, app_assoc, Hq1.
      rewrite (enqueued_cons ev evs), <- !app_assoc. reflexivity.
Qed.

Lemma blocks_fetch_city cities blocks :
  Forall2 (cycle_requests E) cities blocks →
  omap fetch_city (concat blocks) = cities.
Proof.
  induction 1 as [|c b cs bs Hc _ IH]; [reflexivity|].
  simpl. rewrite omap_app, IH, (cycle_requests_fetch_city E c b Hc).
  reflexivity.
Qed.


End Threads.

(** The worker thread never dies, whatever the events and the outside
    world. *)
Lemma update_thread_stays_alive (E : Env) (evs : list event) (s : system) :
  update_thread s = Alive → update_thread (run E evs s) = Alive.
Proof. intros Ha. apply (run_accounts E evs s Ha). Qed.



Example fifo_demo :
  fetch_calls (gui (run fair_weather two_searches_one_turn idle)) = ["London"]
  ∧ items (update_queue (gui (run fair_weather two_searches_one_turn idle)))
    = ["Paris"].
Proof. vm_compute. split; reflexivity. Qed.


Lemma worker_turn_cycle (E : Env) (w : world) (city : string) (rest : list string) :
  items (update_queue w) = city :: rest →
  ∃ w' block st,
    step E {| gui := w; update_thread := Alive |} WorkerTurn
      = {| gui := w'; update_thread := Alive |} ∧
    items (update_queue w') = rest ∧
    (pred (unfinished_tasks (update_queue w))
       ≤ unfinished_tasks (update_queue w'))%nat ∧
    http_log w' = http_log w ++ block ∧ cycle_requests E city block ∧
    final_status city st ∧
    (status_log w' =
       status_log w ++ ["Fetching weather data for " +:+ city +:+ "..."; st]
     ∨ unfinished_tasks (update_queue w) = 0%nat).
Proof.
  intros Hq.
  destruct (update_worker_body_cycle E w city rest Hq)
    as (w' & b & st & Hrun & Hq' & Hu & Hl & Hc & Hf & Hs & _).
  exists w', b, st. cbn [step update_thread gui]. rewrite Hrun.
  repeat split; try assumption; [lia|]. destruct Hs as [Hs|[Hz _]]; eauto.
Qed.



(** *** The Search button *)

Lemma drop_spaces_nil l : drop_spaces l = [] ↔ forallb isspace l = true.
Proof.
  induction l as [|c l IH]; simpl; [tauto|].
  destruct (isspace c); simpl; [exact IH|]. split; discriminate.
Qed.

Lemma drop_spaces_head l c l' : drop_spaces l = c :: l' → isspace c = false.
Proof.
  induction l as [|a l IH]; simpl; [discriminate|].
  destruct (isspace a) eqn:Ha; [exact IH|]. intros [= <- _]. exact Ha.
Qed.

Lemma string_of_list_ascii_truthy l :
  str_truthy (string_of_list_ascii l) = negb (bool_decide (l = [])).
Proof. destruct l; reflexivity. Qed.

(** [strip] leaves the empty string exactly on blank input. *)
Lemma strip_truthy s : str_truthy (strip s) = negb (blank s).
Proof.
  unfold strip, blank. rewrite string_of_list_ascii_truthy.
  destruct (drop_spaces (list_ascii_of_string s)) as [|c l] eqn:Hd.
  - apply drop_spaces_nil in Hd. rewrite Hd. reflexivity.
  - assert (Hb : forallb isspace (list_ascii_of_string s) = false).
    { destruct (forallb isspace (list_ascii_of_string s)) eqn:Hf; [|reflexivity].
      apply drop_spaces_nil in Hf. congruence. }
    rewrite Hb. simpl.
    apply drop_spaces_head in Hd.
    destruct (drop_spaces (rev l ++ [c])) as [|c' l'] eqn:Hd2.
    + apply drop_spaces_nil in Hd2. rewrite forallb_app in Hd2. simpl in Hd2.
      rewrite Hd in Hd2. rewrite andb_false_r in Hd2. discriminate.
    + rewrite bool_decide_eq_false_2; [reflexivity|].
      intros Hr. apply (f_equal length) in Hr.
      rewrite length_rev in Hr. discriminate.
Qed.

(** C10. [update_weather] puts a request on the queue exactly when the
    text of the entry is not blank, and the request is the stripped text;
    on blank text the queue is as before and the user is warned.  Nothing
    else changes, and no request is issued. *)
Theorem update_weather_enqueues_iff_not_blank (w : world) :
  ∃ w',
    update_weather w = (Ret tt, w') ∧
    str_truthy (strip (city_var w)) = negb (blank (city_var w)) ∧
    (if blank (city_var w)
     then update_queue w' = update_queue w ∧
          warnings w' =
            warnings w ++ [("Input Error", "Please enter a city name")]
     else items (update_queue w') =
            items (update_queue w) ++ [strip (city_var w)] ∧
          warnings w' = warnings w) ∧
    city_var w' = city_var w ∧ shown w' = shown w ∧
    status_log w' = status_log w ∧ http_log w' = http_log w ∧
    history_file w' = history_file w.
Proof.
  unfold update_weather, queue_put. unfold_monad. cbv beta.
  pose proof (strip_truthy (city_var w)) as Hs.
  destruct (blank (city_var w)); simpl in Hs; rewrite Hs.
  all: eexists; split; [reflexivity|]; simpl; repeat split; reflexivity.
Qed.

Example search_strips :
  items (update_queue (update_weather (set_city_var "  Paris " empty_world)).2)
  = ["Paris"].
Proof. vm_compute. reflexivity. Qed.

Example search_blank :
  items (update_queue (update_weather (set_city_var "   " empty_world)).2) = [].
Proof. vm_compute. reflexivity. Qed.

(** *** The fetch *)


(** C3. [get_weather] asks for the current conditions and then for the
    one-day forecast, and fails as a unit: it returns [None] exactly when
    one of the two calls fails (the request raises, the status is 4xx or
    5xx, or the body does not parse), and a payload it returns holds both
    parsed bodies.  Both requests are issued unless the first one raises. *)
Theorem get_weather_fails_as_a_unit (E : Env) (city : string) (w : world) :
  requests_contract E →
  ∃ r w',
    get_weather E city w = (Ret r, w') ∧
    (r = None ↔ fetch_fails E city (ticks w) = true) ∧
    (∀ p, r = Some p →
       ∃ r1 r2,
         http E (ticks w) (current_request E city) = HttpResponse r1 ∧
         http E (S (ticks w)) (forecast_request E city) = HttpResponse r2 ∧
         json_result r1 = inr (current p) ∧
         json_result r2 = inr (forecast p)) ∧
    (http_log w' =
       http_log w ++ [current_request E city; forecast_request E city]
     ∨ (∃ e, http E (ticks w) (current_request E city) = HttpRaises e) ∧
       http_log w' = http_log w ++ [current_request E city]).
Proof.
  intros Hcontract.
  destruct (get_weather_run E city w)
    as (r & w' & Hrun & Hnb & Hraise & Hiff & Hsome & Hlog & _).
  simpl in Hraise, Hiff, Hsome, Hlog.
  destruct r as [r|e|]; [| |congruence].
  - exists r, w'. split; [exact Hrun|]. split; [|split].
    + destruct (fetch_fails E city (ticks w)) eqn:Hf.
      * split; [reflexivity|]. intros _.
        destruct r as [p|]; [|reflexivity].
        assert (Hex : ∃ q, Ret (Some p) = Ret (Some q)) by eauto.
        apply Hiff in Hex. discriminate.
      * split; [|discriminate]. intros ->.
        destruct (proj2 Hiff eq_refl) as [p Hp]. discriminate.
    + intros p ->. apply Hsome. reflexivity.
    + exact Hlog.
  - exfalso. destruct (Hraise e eq_refl) as (Hne & Hby).
    assert (Hreq : ∀ n rq, raised_by E e n rq → is_RequestException e = true).
    { intros n rq [Hh|(r1 & Hh & Hj)]; specialize (Hcontract n rq);
        rewrite Hh in Hcontract; [exact Hcontract|].
      rewrite Hj in Hcontract. exact Hcontract. }
    destruct Hby as [Hby|Hby]; apply Hreq in Hby; congruence.
Qed.

Lemma get_weather_fails_as_a_unit_witness :
  requests_contract unknown_place ∧
  ∃ r w',
    get_weather unknown_place "Atlantis" empty_world = (Ret r, w') ∧
    (r = None ↔ fetch_fails unknown_place "Atlantis" 0 = true).
Proof.
  assert (Hc : requests_contract unknown_place).
  { intros n rq. exact I. }
  split; [exact Hc|].
  destruct (get_weather_fails_as_a_unit unknown_place "Atlantis" empty_world Hc)
    as (r & w' & Hrun & Hiff & _).
  exists r, w'. split; [exact Hrun|exact Hiff].
Defined.

Example get_weather_both_bodies :
  (get_weather fair_weather "London" empty_world).1
  = Ret (Some {| current := london_current; forecast := london_forecast |}).
Proof. vm_compute. reflexivity. Qed.

Example get_weather_not_found :
  (get_weather unknown_place "Atlantis" empty_world).1 = Ret None.
Proof. vm_compute. reflexivity. Qed.

Example get_weather_first_call_raises :
  (get_weather flaky_network "London" empty_world).1 = Ret None
  ∧ http_log (get_weather flaky_network "London" empty_world).2
    = [current_request flaky_network "London"].
Proof. vm_compute. split; reflexivity. Qed.

(** *** Normalization *)

Lemma getitem_inr (v : pyval) (k : string) (x : pyval) :
  getitem v k = inr x ↔ ∃ d, v = PDict d ∧ d !! k = Some x.
Proof.
  split.
  - destruct v as [| | | | | |d]; simpl; try discriminate.
    destruct (d !! k) eqn:Hk; [|discriminate]. intros [= ->]. eauto.
  - intros (d & -> & Hk). simpl. rewrite Hk. reflexivity.
Qed.

Lemma make_weather_inr (E : Env) (data : payload) (weather : WeatherData) :
  make_weather E data = inr weather ↔
  ∃ f, has_fields data f ∧ weather = record_of E f.
Proof.
  unfold make_weather, has_fields, record_of.
  unfold mbind, sum_exn_bind, and_then, mret, sum_exn_ret.
  split.
  - destruct (getitem (current data) "current") as [|cur] eqn:H0;
      [discriminate|].
    destruct (getitem cur "temp_c") as [|t] eqn:H1; [discriminate|].
    destruct (getitem cur "condition") as [|cond] eqn:H2; [discriminate|].
    destruct (getitem cond "text") as [|tx] eqn:H3; [discriminate|].
    destruct (getitem cur "humidity") as [|h] eqn:H4; [discriminate|].
    destruct (getitem cur "wind_kph") as [|wk] eqn:H5; [discriminate|].
    destruct (getitem cur "pressure_mb") as [|pm] eqn:H6; [discriminate|].
    destruct (getitem cur "feelslike_c") as [|fl] eqn:H7; [discriminate|].
    destruct (getitem cond "icon") as [|ic] eqn:H8; [discriminate|].
    intros [= <-].
    apply getitem_inr in H0 as (top & Htop & H0).
    apply getitem_inr in H1 as (c1 & -> & H1).
    apply getitem_inr in H2 as (c2 & [= <-] & H2).
    apply getitem_inr in H3 as (cd & -> & H3).
    apply getitem_inr in H4 as (c4 & [= <-] & H4).
    apply getitem_inr in H5 as (c5 & [= <-] & H5).
    apply getitem_inr in H6 as (c6 & [= <-] & H6).
    apply getitem_inr in H7 as (c7 & [= <-] & H7).
    apply getitem_inr in H8 as (c8 & [= <-] & H8).
    exists {| pf_temp_c := t; pf_text := tx; pf_humidity := h;
              pf_wind_kph := wk; pf_pressure_mb := pm; pf_feelslike_c := fl;
              pf_icon := ic |}.
    split; [|reflexivity]. exists top, c1, cd. simpl. repeat split; assumption.
  - intros (f & (top & cur & cond & Htop & H0 & H2 & H1 & H3 & H4 & H5 & H6
                 & H7 & H8) & ->).
    rewrite Htop. simpl. rewrite H0. simpl.
    rewrite H1, H2. simpl. rewrite H3, H4, H5, H6, H7, H8. reflexivity.
Qed.

(** C4, as the code has it.  Normalization invents nothing and converts
    nothing: it builds a record exactly when [current] and [condition] are
    objects holding every documented key, and the fields of the record are
    then the provider's values, whatever their shape (the values are not
    checked against the documented types).  Otherwise it fails explicitly:
    nothing is shown or saved, the error is logged and the status reads
    "Failed to process weather data". *)
Theorem normalization_passes_fields_through
    (E : Env) (city : string) (data : payload) (w : world) :
  (∀ weather,
     make_weather E data = inr weather ↔
     ∃ f, has_fields data f ∧ weather = record_of E f) ∧
  ((∃ e, make_weather E data = inl e) ↔ ¬ ∃ f, has_fields data f) ∧
  (∀ e, make_weather E data = inl e →
     process_weather_data E city data w =
       (Ret tt,
        set_status "Failed to process weather data"
          (add_error_log
             ("Failed to process weather data: " +:+ exn_str e) w))).
Proof.
  split; [intros weather; apply make_weather_inr|]. split.
  - split.
    + intros [e He] [f Hf].
      assert (Hw : make_weather E data = inr (record_of E f)).
      { apply make_weather_inr. eauto. }
      congruence.
    + intros Hno. destruct (make_weather E data) as [e|weather] eqn:Hw; [eauto|].
      exfalso. apply Hno. apply make_weather_inr in Hw as (f & Hf & _). eauto.
  - intros e He. apply process_weather_data_failure. exact He.
Qed.

(** C4, counterexample.  A payload with every documented field, whose
    humidity is a string instead of an integer: the record is built with
    the string in it, and the cycle shows it and saves it. *)
Lemma normalization_accepts_a_wrong_shape :
  has_fields drifted_payload drifted_fields ∧
  documented_shapes drifted_fields = false ∧
  make_weather drifted_schema drifted_payload
    = inr (record_of drifted_schema drifted_fields) ∧
  humidity_var (shown (update_worker_body drifted_schema (waiting ["London"])).2)
    = "eighty%" ∧
  status_var (update_worker_body drifted_schema (waiting ["London"])).2
    = "Weather updated for London".
Proof.
  split.
  { eexists _, _, _. repeat split; vm_compute; reflexivity. }
  vm_compute. repeat split; reflexivity.
Qed.

Example normalization_missing_field :
  make_weather fair_weather
    {| current := dict [("current", dict [("temp_c", PInt 3)])];
       forecast := london_forecast |}
  = inl (KeyError "condition").
Proof. vm_compute. reflexivity. Qed.

Example normalization_scenario :
  shown (update_worker_body fair_weather (waiting ["London"])).2
  = {| temp_var := "15.0" +:+ String degree_sign "C";
       condition_var := "Cloudy"; humidity_var := "80%";
       wind_var := "10.0 km/h"; pressure_var := "1012.0 mb";
       icon_label := Some "PNG" |}.
Proof. vm_compute. reflexivity. Qed.

(** *** Persistence *)

(** C5, as the code has it.  When the append of a cycle raises, the
    cycle still shows the record and still ends with the status "Weather
    updated for <city>"; the failure is caught inside
    [save_weather_data], which writes it to the log and nowhere else: no
    failure reaches the status, and the history file is as before. *)
Theorem persistence_failure_is_logged_only
    (E : Env) (city : string) (data : payload) (weather : WeatherData)
    (w : world) (e : exn) :
  make_weather E data = inr weather →
  to_csv E (S (ticks (world_at_save E city weather data w))) = Some e →
  ∃ w' icon,
    process_weather_data E city data w = (Ret tt, w') ∧
    shown w' =
      {| temp_var := py_str E (temperature weather) +:+ String degree_sign "C";
         condition_var := py_str E (condition weather);
         humidity_var := py_str E (humidity weather) +:+ "%";
         wind_var := py_str E (wind_speed weather) +:+ " km/h";
         pressure_var := py_str E (pressure weather) +:+ " mb";
         icon_label := icon |} ∧
    status_log w' = status_log w ++ ["Weather updated for " +:+ city] ∧
    status_var w' = "Weather updated for " +:+ city ∧
    history_file w' = history_file w ∧
    error_log w' =
      error_log (world_at_save E city weather data w)
        ++ ["Failed to save weather data: " +:+ exn_str e].
Proof.
  intros Hw Hcsv.
  rewrite (process_weather_data_success E city data weather w Hw).
  destruct (world_at_save_facts E city weather data w)
    as (_ & Hshown & _ & _ & _ & Hh & Hs & _).
  destruct (save_weather_data_run E city weather
              (world_at_save E city weather data w))
    as (w3 & Hrun & Hsave & _ & Hshown3 & _ & _ & _ & _ & Hs3 & _).
  rewrite Hcsv in Hsave. destruct Hsave as [Hh3 He3].
  rewrite Hrun. simpl.
  exists (set_status ("Weather updated for " +:+ city) w3).
  exists (icon_label (shown w3)).
  split; [reflexivity|]. simpl.
  rewrite Hs3, Hs, Hh3, Hh, He3, Hshown3.
  repeat split.
  destruct Hshown as [->|[photo ->]]; reflexivity.
Qed.

Lemma persistence_failure_is_logged_only_witness :
  ∃ w' icon,
    process_weather_data read_only_disk "London"
      {| current := london_current; forecast := london_forecast |}
      empty_world = (Ret tt, w') ∧
    shown w' =
      {| temp_var := "15.0" +:+ String degree_sign "C";
         condition_var := "Cloudy"; humidity_var := "80%";
         wind_var := "10.0 km/h"; pressure_var := "1012.0 mb";
         icon_label := icon |} ∧
    status_log w' = ["Weather updated for London"] ∧
    history_file w' = None.
Proof.
  destruct (persistence_failure_is_logged_only read_only_disk "London"
              {| current := london_current; forecast := london_forecast |}
              (record_of read_only_disk
                 {| pf_temp_c := PFloat (float_of_Z 15);
                    pf_text := PStr "Cloudy"; pf_humidity := PInt 80;
                    pf_wind_kph := PFloat (float_of_Z 10);
                    pf_pressure_mb := PFloat (float_of_Z 1012);
                    pf_feelslike_c := PFloat (float_of_Z 14);
                    pf_icon :=
                      PStr "//cdn.weatherapi.com/weather/64x64/day/119.png" |})
              empty_world (OSError "[Errno 30] Read-only file system")
              eq_refl eq_refl)
    as (w' & icon & Hrun & Hshown & Hs & _ & Hh & _).
  exists w', icon. repeat split; assumption.
Defined.

(** C5, counterexample.  On a disk that cannot be written the cycle for
    London writes two statuses, "Fetching ..." and "Weather updated for
    London", neither of them a failure; the failure is in the log only,
    and no history file exists afterwards. *)
Lemma persistence_failure_never_reaches_the_status :
  let w' := (update_worker_body read_only_disk (waiting ["London"])).2 in
  status_log w' =
    ["Fetching weather data for London..."; "Weather updated for London"] ∧
  existsb failure_status (status_log w') = false ∧
  error_log w' =
    ["Failed to save weather data: [Errno 30] Read-only file system"] ∧
  history_file w' = None ∧
  temp_var (shown w') = "15.0" +:+ String degree_sign "C".
Proof. vm_compute. repeat split; reflexivity. Qed.

(** *** A failed fetch *)

Lemma failed_fetch_keeps_display (E : Env) (w : world) (city : string)
    (rest : list string) :
  items (update_queue w) = city :: rest →
  fetch_fails E city (ticks w) = true →
  ∃ w',
    update_worker_body E w = (Ret tt, w') ∧
    shown w' = shown w ∧ ax_plot w' = ax_plot w ∧
    history_file w' = history_file w ∧
    failure_status (status_var w') = true ∧
    status_var w' ≠ "Weather updated for " +:+ city.
Proof.
  intros Hq Hfail. unfold update_worker_body.
  unfold try_except, mbind, M_bind. unfold queue_get at 1. rewrite Hq.
  unfold status_var_set at 1, modify at 1.
  set (w1 := set_status _ (set_update_queue _ w)).
  destruct (get_weather_run E city w1)
    as (r & w2 & -> & Hnb & _ & Hiff & _ & _ & _ & Hsh & _ & Hax & Hq2 & Hh & _).
  simpl in Hiff, Hsh, Hax, Hq2, Hh.
  destruct r as [[data|]|e|]; [| | |congruence].
  - assert (Hex : ∃ p, Ret (Some data) = Ret (Some p)) by eauto.
    apply Hiff in Hex. congruence.
  - unfold status_var_set, modify, task_done. simpl. rewrite Hq2. simpl.
    destruct (unfinished_tasks (update_queue w)).
    + unfold Exception, logger_error, modify. simpl.
      eexists; split; [reflexivity|]. simpl. repeat split; eauto; discriminate.
    + eexists; split; [reflexivity|]. simpl. repeat split; eauto; discriminate.
  - unfold Exception, logger_error, status_var_set, modify. simpl.
    eexists; split; [reflexivity|]. simpl. repeat split; eauto; discriminate.
Qed.

Lemma pro_failed_fetch_clears (E : Env) (pw : Pro.world) (r : response) :
  http E (Pro.ticks pw) (pro_request (Pro.city_entry pw)) = HttpResponse r →
  status_code r ≠ 200 →
  Pro.update_weather E pw =
    (Ret tt,
     Pro.set_icon_label None
       (Pro.set_labels "Error fetching data" "" ""
          (Pro.called (pro_request (Pro.city_entry pw)) pw))).
Proof.
  intros Hr Hs.
  unfold Pro.update_weather, Pro.fetch_weather, Pro.requests_get.
  unfold_monad. cbn beta.
  fold (pro_request (Pro.city_entry pw)). simpl. rewrite Hr.
  destruct (status_code r =? 200) eqn:H200; [lia|]. reflexivity.
Qed.

(** C6, as the code has it.  In the dashboard a cycle whose fetch fails
    writes no history and leaves the five weather fields, the icon and the
    graph as they were; the status, a failure status, is all that changes
    on screen.  In pro.py a response whose status is not 200 writes no
    history either, but replaces the temperature by "Error fetching data"
    and clears the condition, the humidity and the icon. *)
Theorem failed_fetch_on_screen (E : Env) :
  (∀ w city rest,
     items (update_queue w) = city :: rest →
     fetch_fails E city (ticks w) = true →
     ∃ w',
       update_worker_body E w = (Ret tt, w') ∧
       shown w' = shown w ∧ ax_plot w' = ax_plot w ∧
       history_file w' = history_file w ∧
       failure_status (status_var w') = true) ∧
  (∀ pw r,
     http E (Pro.ticks pw) (pro_request (Pro.city_entry pw)) = HttpResponse r →
     status_code r ≠ 200 →
     ∃ pw',
       Pro.update_weather E pw = (Ret tt, pw') ∧
       Pro.history_file pw' = Pro.history_file pw ∧
       Pro.temp_label pw' = "Error fetching data" ∧
       Pro.condition_label pw' = "" ∧ Pro.humidity_label pw' = "" ∧
       Pro.icon_label pw' = None).
Proof.
  split.
  - intros w city rest Hq Hf.
    destruct (failed_fetch_keeps_display E w city rest Hq Hf)
      as (w' & ? & ? & ? & ? & ? & _). eauto 10.
  - intros pw r Hr Hs. rewrite (pro_failed_fetch_clears E pw r Hr Hs).
    eexists; split; [reflexivity|]. simpl. repeat split.
Qed.

Lemma failed_fetch_on_screen_witness :
  ∃ w',
    update_worker_body unknown_place showing_weather = (Ret tt, w') ∧
    shown w' = shown showing_weather ∧ ax_plot w' = ax_plot showing_weather ∧
    history_file w' = history_file showing_weather ∧
    failure_status (status_var w') = true.
Proof.
  exact (proj1 (failed_fetch_on_screen unknown_place)
           showing_weather "Atlantis" [] eq_refl eq_refl).
Defined.

(** C6, counterexample.  pro.py shows yesterday's weather; the provider
    answers 404; the window then reads "Error fetching data" with the
    condition, the humidity and the icon cleared. *)
Lemma pro_failed_fetch_clears_the_display :
  let pw' := (Pro.update_weather unknown_place pro_showing).2 in
  Pro.temp_label pro_showing = "9.0" +:+ String degree_sign "C" ∧
  Pro.temp_label pw' = "Error fetching data" ∧
  Pro.condition_label pw' = "" ∧ Pro.humidity_label pw' = "" ∧
  Pro.icon_label pw' = None ∧
  Pro.history_file pw' = Pro.history_file pro_showing.
Proof. vm_compute. repeat split; reflexivity. Qed.

Example failed_fetch_status :
  status_log (update_worker_body unknown_place showing_weather).2
  = ["Fetching weather data for Atlantis..."; "Failed to fetch weather data"].
Proof. vm_compute. reflexivity. Qed.

(** *** The history file *)

Lemma csv_lines_history (t : Z) (city : string) (weather : WeatherData)
    (header : bool) :
  csv_lines (history_columns t city weather) header
  = (if header then [history_header] else []) ++ [history_row t city weather].
Proof. destruct header; reflexivity. Qed.

Lemma save_weather_data_appends (E : Env) (city : string)
    (weather : WeatherData) (w : world) :
  ∃ w',
    save_weather_data E city weather w = (Ret tt, w') ∧
    match to_csv E (S (ticks w)) with
    | Some _ => history_file w' = history_file w
    | None =>
        history_file w' =
          Some (match history_file w with
                | None => [history_header]
                | Some ls => ls
                end ++ [history_row (now E (ticks w)) city weather])
    end.
Proof.
  destruct (save_weather_data_run E city weather w) as (w' & Hrun & Hsave & _).
  exists w'. split; [exact Hrun|].
  destruct (to_csv E (S (ticks w))); [tauto|].
  destruct Hsave as [-> _]. rewrite csv_lines_history.
  destruct (history_file w); reflexivity.
Qed.

Lemma well_formed_history_append (f : option (list csv_line)) (row : csv_line) :
  is_header row = false →
  well_formed_history f →
  well_formed_history
    (Some (match f with None => [history_header] | Some ls => ls end ++ [row])).
Proof.
  intros Hrow Hf. destruct f as [ls|]; simpl in *.
  - destruct Hf as (rows & -> & Hrows). exists (rows ++ [row]).
    split; [reflexivity|]. apply Forall_app. split; [exact Hrows|].
    repeat constructor. exact Hrow.
  - exists [row]. split; [reflexivity|]. repeat constructor. exact Hrow.
Qed.

Lemma save_all_well_formed (E : Env) (records : list (string * WeatherData))
    (w : world) :
  well_formed_history (history_file w) →
  well_formed_history (history_file (save_all E records w)).
Proof.
  revert w. induction records as [|[city weather] records IH]; intros w Hw.
  - exact Hw.
  - unfold save_all. simpl. apply IH.
    destruct (save_weather_data_appends E city weather w) as (w' & -> & Hf).
    simpl. destruct (to_csv E (S (ticks w))).
    + rewrite Hf. exact Hw.
    + rewrite Hf. apply well_formed_history_append; [reflexivity|exact Hw].
Qed.

Lemma well_formed_header_count (ls : list csv_line) :
  well_formed_history (Some ls) → header_count (Some ls) = 1%nat.
Proof.
  intros (rows & -> & Hrows). unfold header_count.
  change (default [] (Some (history_header :: rows)))
    with (history_header :: rows).
  rewrite filter_cons_True by reflexivity.
  cbn [length]. f_equal.
  induction Hrows as [|row rows Hrow _ IH]; [reflexivity|].
  rewrite filter_cons_False; [exact IH|]. rewrite Hrow. discriminate.
Qed.

Example history_two_appends :
  history_file
    (save_all fair_weather
       [("London", london_record);
        ("Paris", london_record)] empty_world)
  = Some [history_header;
          history_row 1730710800 "London" london_record;
          history_row 1730710802 "Paris" london_record].
Proof. vm_compute. reflexivity. Qed.

(** *** The icon *)

Lemma pro_update_weather_icon (E : Env) (pw pw1 : Pro.world)
    (t c h i : pyval) :
  Pro.fetch_weather E (Pro.city_entry pw) pw = (Ret (t, c, h, i), pw1) →
  Pro.is_not_None t = true →
  to_csv E (Pro.ticks pw1) = None →
  ∃ r pw',
    Pro.update_weather E pw = (r, pw') ∧
    Pro.http_log pw' =
      Pro.http_log pw1 ++ [icon_request ("http:" +:+ py_str E i)].
Proof.
  intros Hf Ht Hcsv.
  unfold Pro.update_weather. unfold mbind, M_bind at 1 2. unfold gets at 1.
  rewrite Hf. rewrite Ht.
  unfold Pro.save_to_csv, Pro.requests_get. unfold_monad. simpl.
  rewrite Hcsv. simpl. unfold icon_request.
  destruct (http E _ _); simpl; [eauto|].
  destruct (photo_image E _); simpl; eauto.
Qed.

(** C9, as the code has it.  [get_weather] issues the two provider
    requests and nothing else, and [save_weather_data] issues no request;
    neither touches the icon URL.  The icon is fetched by [update_ui],
    which [process_weather_data] calls on the worker thread as soon as the
    record is built: every cycle that builds a record issues one GET to
    the icon URL of the record, whose failure [update_ui] catches.  pro.py
    fetches the icon too, after saving the row. *)
Theorem icon_is_fetched_inside_the_cycle
    (E : Env) (city : string) (data : payload) (w : world) :
  (∃ b,
     http_log (get_weather E city w).2 = http_log w ++ b ∧
     (b = [current_request E city]
      ∨ b = [current_request E city; forecast_request E city])) ∧
  (∀ weather, http_log (save_weather_data E city weather w).2 = http_log w) ∧
  (∀ weather,
     ∃ w',
       update_ui E city weather w = (Ret tt, w') ∧
       http_log w' = http_log w ++ [icon_request (icon_url weather)]) ∧
  http_log (process_weather_data E city data w).2 =
    http_log w ++
    match make_weather E data with
    | inr weather => [icon_request (icon_url weather)]
    | inl _ => []
    end ∧
  (∀ pw pw1 t c h i,
     Pro.fetch_weather E (Pro.city_entry pw) pw = (Ret (t, c, h, i), pw1) →
     Pro.is_not_None t = true →
     to_csv E (Pro.ticks pw1) = None →
     Pro.http_log (Pro.update_weather E pw).2 =
       Pro.http_log pw1 ++ [icon_request ("http:" +:+ py_str E i)]).
Proof.
  repeat split.
  - destruct (get_weather_requests E city w)
      as (r & w' & b & -> & _ & Hl & Hb & _). eauto.
  - intros weather.
    destruct (save_weather_data_run E city weather w)
      as (w' & -> & _ & _ & _ & _ & _ & _ & Hl & _). exact Hl.
  - intros weather.
    destruct (update_ui_run E city weather w) as (w' & Hrun & Hl & _). eauto.
  - destruct (make_weather E data) as [e|weather] eqn:Hw.
    + rewrite (process_weather_data_failure E city data e w Hw). simpl.
      rewrite app_nil_r. reflexivity.
    + rewrite (process_weather_data_success E city data weather w Hw). simpl.
      destruct (world_at_save_facts E city weather data w) as (Hl & _).
      destruct (save_weather_data_run E city weather
                  (world_at_save E city weather data w))
        as (w' & -> & _ & _ & _ & _ & _ & _ & Hl' & _).
      simpl. rewrite Hl'. exact Hl.
  - intros pw pw1 t c h i Hf Ht Hcsv.
    destruct (pro_update_weather_icon E pw pw1 t c h i Hf Ht Hcsv)
      as (r & pw' & -> & Hl). exact Hl.
Qed.

Lemma icon_is_fetched_inside_the_cycle_witness :
  Pro.http_log (Pro.update_weather fair_weather pro_fresh).2 =
    Pro.http_log (Pro.fetch_weather fair_weather "London" pro_fresh).2
    ++ [icon_request
          ("http:" +:+ py_str fair_weather
             (PStr "//cdn.weatherapi.com/weather/64x64/day/119.png"))].
Proof.
  apply (proj2 (proj2 (proj2 (proj2
           (icon_is_fetched_inside_the_cycle fair_weather "London"
              {| current := london_current; forecast := london_forecast |}
              empty_world))))
           pro_fresh (Pro.fetch_weather fair_weather "London" pro_fresh).2
           (PFloat (float_of_Z 15)) (PStr "Cloudy") (PInt 80)
           (PStr "//cdn.weatherapi.com/weather/64x64/day/119.png")).
  - vm_compute. reflexivity.
  - reflexivity.
  - reflexivity.
Defined.

(** C9, counterexample.  One turn of the worker for London: the third
    request of the cycle is a GET to the icon URL of the record. *)
Lemma worker_cycle_fetches_the_icon :
  http_log (update_worker_body fair_weather (waiting ["London"])).2
  = [current_request fair_weather "London";
     forecast_request fair_weather "London";
     icon_request "http://cdn.weatherapi.com/weather/64x64/day/119.png"].
Proof. vm_compute. reflexivity. Qed.

(** *** The scenarios of the specification *)

Lemma normalization_passes_fields_through_witness :
  process_weather_data fair_weather "London"
    {| current := dict [("current", dict [("temp_c", PInt 3)])];
       forecast := london_forecast |} showing_weather
  = (Ret tt,
     set_status "Failed to process weather data"
       (add_error_log "Failed to process weather data: 'condition'"
          showing_weather)).
Proof.
  exact (proj2 (proj2 (normalization_passes_fields_through fair_weather "London"
                         {| current := dict [("current", dict [("temp_c", PInt 3)])];
                            forecast := london_forecast |} showing_weather))
           (KeyError "condition") eq_refl).
Defined.

(** The first request meets a dead network, the second one goes through,
    and the worker then waits for a third. *)
Example worker_outlives_a_failure :
  let r := update_worker flaky_network 3 (waiting ["Paris"; "London"]) in
  r.1 = Block ∧
  status_log r.2 =
    ["Fetching weather data for Paris..."; "Failed to fetch weather data";
     "Fetching weather data for London..."; "Weather updated for London"] ∧
  fetch_calls r.2 = ["Paris"; "London"] ∧
  history_file r.2 =
    Some [history_header;
          history_row 1730710805 "London" london_record].
Proof. vm_compute. repeat split; reflexivity. Qed.

(** The London scenario: one result, one new history row. *)
Example london_scenario :
  let w' := (update_worker_body fair_weather (waiting ["London"])).2 in
  status_var w' = "Weather updated for London" ∧
  ax_plot w' =
    [("2024-11-04 00:00", PFloat (float_of_Z 12));
     ("2024-11-04 01:00", PFloat (float_of_Z 11))] ∧
  history_file w' =
    Some [history_header;
          history_row 1730710804 "London" london_record].
Proof. vm_compute. repeat split; reflexivity. Qed.

(* ================================================================= *)
(** * Further properties of the code *)

(** *** The forecast graph *)

Lemma comprehension_inr {A} (f : pyval → exn + A) (l : list pyval) (ys : list A) :
  Forall2 (fun x y => f x = inr y) l ys → comprehension f l = inr ys.
Proof.
  induction 1 as [|x y l ys Hx _ IH]; [reflexivity|].
  simpl. unfold mbind, sum_exn_bind, and_then. rewrite Hx, IH. reflexivity.
Qed.

Lemma comprehension_inl {A} (f : pyval → exn + A) (l : list pyval) (x : pyval)
    (e : exn) :
  x ∈ l → f x = inl e → ∃ e', comprehension f l = inl e'.
Proof.
  intros Hin Hx. induction Hin as [x l|x y l _ IH]; simpl;
    unfold mbind, sum_exn_bind, and_then.
  - rewrite Hx. eauto.
  - destruct (f y); [eauto|]. destruct (IH Hx) as [e' ->]. eauto.
Qed.

Lemma forecast_series_hours (E : Env) (forecast_data : pyval) (hs : list pyval) :
  forecast_hours forecast_data = inr (PList hs) →
  forecast_series E forecast_data =
    match comprehension
            (fun hour => t ← getitem hour "time"; fromisoformat E t) hs with
    | inl e => inl e
    | inr times =>
        match comprehension (fun hour => getitem hour "temp_c") hs with
        | inl e => inl e
        | inr temps => inr (zip times temps)
        end
    end.
Proof.
  intros Hh. unfold forecast_series.
  change (forecast_hours forecast_data ≫= _)
    with (and_then (forecast_hours forecast_data)
            (fun hours =>
               times ← hour_times E hours;
               temps ← hour_temps hours;
               mret (zip times temps))).
  rewrite Hh. reflexivity.
Qed.

Lemma forecast_series_points (E : Env) (forecast_data : pyval)
    (hs : list pyval) (points : series) :
  forecast_hours forecast_data = inr (PList hs) →
  Forall2 (hour_entry E) hs points →
  forecast_series E forecast_data = inr points.
Proof.
  intros Hh Hp. rewrite (forecast_series_hours E forecast_data hs Hh).
  rewrite (comprehension_inr _ hs points.*1).
  - rewrite (comprehension_inr _ hs points.*2).
    + rewrite zip_fst_snd. reflexivity.
    + clear Hh. induction Hp as [|h p hs ps (_ & _ & Ht) _ IH];
        constructor; auto.
  - clear Hh. induction Hp as [|h p hs ps (Ht & Hv & _) _ IH];
      constructor; auto.
    unfold mbind, sum_exn_bind, and_then. rewrite Ht. simpl. rewrite Hv.
    reflexivity.
Qed.

Lemma forecast_series_bad_hour (E : Env) (forecast_data : pyval)
    (hs : list pyval) (h : pyval) :
  forecast_hours forecast_data = inr (PList hs) →
  h ∈ hs → bad_hour E h →
  ∃ e, forecast_series E forecast_data = inl e.
Proof.
  intros Hh Hin Hbad. rewrite (forecast_series_hours E forecast_data hs Hh).
  destruct Hbad as [[e He]|[e He]].
  - destruct (comprehension_inl
                (fun hour => t ← getitem hour "time"; fromisoformat E t)
                hs h e Hin He) as [e' ->]. eauto.
  - destruct (comprehension _ hs) as [e1|times]; [eauto|].
    destruct (comprehension_inl (fun hour => getitem hour "temp_c")
                hs h e Hin He) as [e' ->]. eauto.
Qed.

(** [update_forecast_graph] in terms of the series it extracts. *)
Lemma update_forecast_graph_series (E : Env) (forecast_data : pyval) (w : world) :
  update_forecast_graph E forecast_data w =
  match forecast_series E forecast_data with
  | inl e =>
      (Ret tt,
       add_error_log ("Failed to update forecast graph: " +:+ exn_str e) w)
  | inr points =>
      try_except Exception (draw_forecast E points)
        (fun e =>
           logger_error ("Failed to update forecast graph: " +:+ exn_str e)) w
  end.
Proof.
  unfold update_forecast_graph, forecast_series, logger_error.
  unfold try_except, Exception, mbind, M_bind, sum_exn_bind, and_then, lift,
    mret, M_ret, sum_exn_ret, raise, modify.
  destruct (forecast_hours forecast_data) as [e|hours]; [reflexivity|].
  destruct (hour_times E hours) as [e|times]; [reflexivity|].
  destruct (hour_temps hours) as [e|temps]; reflexivity.
Qed.

(** X1. When every hour entry of the first forecast day has a parsable
    time and a temperature, and matplotlib draws, the axes hold one point
    per entry, in the order of the entries, and nothing is logged. *)
Theorem forecast_graph_plots_every_hour
    (E : Env) (forecast_data : pyval) (hs : list pyval) (points : series)
    (w : world) :
  forecast_hours forecast_data = inr (PList hs) →
  Forall2 (hour_entry E) hs points →
  matplotlib E (ticks w) points = DrawOk →
  ∃ w',
    update_forecast_graph E forecast_data w = (Ret tt, w') ∧
    ax_plot w' = points ∧ length (ax_plot w') = length hs ∧
    error_log w' = error_log w.
Proof.
  intros Hh Hp Hd. rewrite update_forecast_graph_series.
  rewrite (forecast_series_points E forecast_data hs points Hh Hp).
  unfold try_except, draw_forecast, tick, mbind, M_bind, modify. simpl.
  rewrite Hd. eexists; split; [reflexivity|]. simpl.
  repeat split. symmetry. exact (Forall2_length _ _ _ Hp).
Qed.

Lemma forecast_graph_plots_every_hour_witness :
  ∃ w',
    update_forecast_graph fair_weather london_forecast empty_world
      = (Ret tt, w') ∧
    ax_plot w' = london_points.
Proof.
  destruct (forecast_graph_plots_every_hour fair_weather london_forecast
              london_hours london_points empty_world) as (w' & Hrun & Hp & _).
  - reflexivity.
  - repeat constructor.
  - reflexivity.
  - eauto.
Defined.

(** X2. The graph is all or nothing.  When the forecast has no
    [forecast.forecastday[0].hour], or when a single hour entry lacks its
    time or its temperature (or has a time that does not parse), nothing
    is drawn: the axes keep the previous curve, matplotlib is not called,
    the error is logged and the function returns normally. *)
Theorem forecast_graph_is_all_or_nothing
    (E : Env) (forecast_data : pyval) (w : world) :
  (∀ e, forecast_hours forecast_data = inl e →
     update_forecast_graph E forecast_data w =
       (Ret tt,
        add_error_log ("Failed to update forecast graph: " +:+ exn_str e) w)) ∧
  (∀ hs h,
     forecast_hours forecast_data = inr (PList hs) →
     h ∈ hs → bad_hour E h →
     ∃ e,
       update_forecast_graph E forecast_data w =
         (Ret tt,
          add_error_log ("Failed to update forecast graph: " +:+ exn_str e) w)).
Proof.
  split.
  - intros e He. rewrite update_forecast_graph_series.
    unfold forecast_series, mbind, sum_exn_bind, and_then. rewrite He.
    reflexivity.
  - intros hs h Hh Hin Hbad. rewrite update_forecast_graph_series.
    destruct (forecast_series_bad_hour E forecast_data hs h Hh Hin Hbad)
      as [e ->]. eauto.
Qed.

Lemma forecast_graph_is_all_or_nothing_witness :
  ∃ e,
    update_forecast_graph fair_weather patchy_forecast
      (set_ax_plot london_points empty_world) =
      (Ret tt,
       add_error_log ("Failed to update forecast graph: " +:+ exn_str e)
         (set_ax_plot london_points empty_world)).
Proof.
  apply (proj2 (forecast_graph_is_all_or_nothing fair_weather patchy_forecast
                  (set_ax_plot london_points empty_world))
           [dict [("time", PStr "2024-11-04 00:00");
                  ("temp_c", PFloat (float_of_Z 12))];
            dict [("time", PStr "2024-11-04 01:00")]]
           (dict [("time", PStr "2024-11-04 01:00")])).
  - reflexivity.
  - apply list_elem_of_In. simpl. auto.
  - right. exists (KeyError "temp_c"). reflexivity.
Defined.

(** X3. [ax.clear()] comes before [ax.plot]: when the points were
    extracted but plotting raises, the previous curve is gone, the axes
    are empty, and the error is logged; the weather fields, the history
    and the status are untouched and the function returns normally. *)
Theorem failed_plot_clears_the_axes
    (E : Env) (forecast_data : pyval) (points : series) (w : world) (e : exn) :
  forecast_series E forecast_data = inr points →
  matplotlib E (ticks w) points = PlotRaises e →
  ∃ w',
    update_forecast_graph E forecast_data w = (Ret tt, w') ∧
    ax_plot w' = [] ∧
    error_log w' =
      error_log w ++ ["Failed to update forecast graph: " +:+ exn_str e] ∧
    shown w' = shown w ∧ history_file w' = history_file w ∧
    status_log w' = status_log w.
Proof.
  intros Hs Hd. rewrite update_forecast_graph_series, Hs.
  unfold try_except, draw_forecast, tick, logger_error, Exception, mbind,
    M_bind, modify, raise. simpl.
  rewrite Hd. eexists; split; [reflexivity|]. simpl. repeat split.
Qed.

Lemma failed_plot_clears_the_axes_witness :
  ∃ w',
    update_forecast_graph broken_plot london_forecast
      (set_ax_plot london_points empty_world) = (Ret tt, w') ∧
    ax_plot w' = [].
Proof.
  destruct (failed_plot_clears_the_axes broken_plot london_forecast
              london_points (set_ax_plot london_points empty_world)
              (ValueError "could not convert") eq_refl eq_refl)
    as (w' & Hrun & Hax & _).
  eauto.
Defined.

(** *** The display *)

(** X4. [update_ui] never fails on the icon.  The five text fields always
    show the record.  The icon changes only when the request returns and
    Pillow decodes its content (the status of the response is not
    looked at); when the request raises or the content is no image, the
    previous icon stays and the error is logged. *)
Theorem update_ui_survives_a_missing_icon
    (E : Env) (city : string) (weather : WeatherData) (w : world) :
  ∃ w',
    update_ui E city weather w = (Ret tt, w') ∧
    temp_var (shown w') =
      py_str E (temperature weather) +:+ String degree_sign "C" ∧
    condition_var (shown w') = py_str E (condition weather) ∧
    humidity_var (shown w') = py_str E (humidity weather) +:+ "%" ∧
    wind_var (shown w') = py_str E (wind_speed weather) +:+ " km/h" ∧
    pressure_var (shown w') = py_str E (pressure weather) +:+ " mb" ∧
    match http E (ticks w) (icon_request (icon_url weather)) with
    | HttpResponse r =>
        match photo_image E (content r) with
        | None =>
            icon_label (shown w') = Some (content r) ∧
            error_log w' = error_log w
        | Some e =>
            icon_label (shown w') = icon_label (shown w) ∧
            error_log w' =
              error_log w ++ ["Failed to update weather icon: " +:+ exn_str e]
        end
    | HttpRaises e =>
        icon_label (shown w') = icon_label (shown w) ∧
        error_log w' =
          error_log w ++ ["Failed to update weather icon: " +:+ exn_str e]
    end.
Proof.
  unfold update_ui, http_get, logger_error, tick, icon_request.
  unfold_monad. simpl.
  destruct (http E (ticks w) _) as [e|r]; simpl.
  - eexists; split; [reflexivity|]. simpl. repeat split.
  - destruct (photo_image E (content r)); simpl.
    all: eexists; split; [reflexivity|]; simpl; repeat split.
Qed.

Example icon_server_down :
  let w' := (update_worker_body icon_down showing_weather).2 in
  temp_var (shown w') = "15.0" +:+ String degree_sign "C" ∧
  icon_label (shown w') = Some "PNG" ∧
  status_var w' = "Weather updated for Atlantis" ∧
  error_log w' = ["Failed to update weather icon: ConnectionError"].
Proof. vm_compute. repeat split; reflexivity. Qed.

(** X5. Once the record is built it is shown, whatever the icon server,
    matplotlib and the disk do afterwards: [process_weather_data] returns
    normally, the five text fields are the formatted values of the
    provider's fields, and the status reports the update. *)
Theorem built_record_is_always_shown
    (E : Env) (city : string) (data : payload) (f : provider_fields)
    (w : world) :
  has_fields data f →
  ∃ w' icon,
    process_weather_data E city data w = (Ret tt, w') ∧
    shown w' =
      {| temp_var := py_str E (pf_temp_c f) +:+ String degree_sign "C";
         condition_var := py_str E (pf_text f);
         humidity_var := py_str E (pf_humidity f) +:+ "%";
         wind_var := py_str E (pf_wind_kph f) +:+ " km/h";
         pressure_var := py_str E (pf_pressure_mb f) +:+ " mb";
         icon_label := icon |} ∧
    status_var w' = "Weather updated for " +:+ city ∧
    status_log w' = status_log w ++ ["Weather updated for " +:+ city].
Proof.
  intros Hf.
  assert (Hw : make_weather E data = inr (record_of E f)).
  { apply make_weather_inr. eauto. }
  rewrite (process_weather_data_success E city data _ w Hw).
  destruct (world_at_save_facts E city (record_of E f) data w)
    as (_ & Hshown & _ & _ & _ & _ & Hs & _).
  destruct (save_weather_data_run E city (record_of E f)
              (world_at_save E city (record_of E f) data w))
    as (w3 & Hrun & _ & _ & Hshown3 & _ & _ & _ & _ & Hs3 & _).
  rewrite Hrun. simpl.
  exists (set_status ("Weather updated for " +:+ city) w3).
  exists (icon_label (shown w3)).
  split; [reflexivity|]. simpl. rewrite Hs3, Hs, Hshown3.
  repeat split.
  destruct Hshown as [->|[photo ->]]; reflexivity.
Qed.

Lemma built_record_is_always_shown_witness :
  ∃ w' icon,
    process_weather_data read_only_disk "London" drifted_payload empty_world
      = (Ret tt, w') ∧
    shown w' =
      {| temp_var := "15.0" +:+ String degree_sign "C";
         condition_var := "Cloudy"; humidity_var := "eighty%";
         wind_var := "10.0 km/h"; pressure_var := "1012.0 mb";
         icon_label := icon |}.
Proof.
  destruct (built_record_is_always_shown read_only_disk "London"
              drifted_payload drifted_fields empty_world)
    as (w' & icon & Hrun & Hshown & _).
  - eexists _, _, _. repeat split; vm_compute; reflexivity.
  - exists w', icon. split; [exact Hrun|exact Hshown].
Defined.

(** *** The outcome of a cycle *)

Lemma get_weather_result_ticks (E : Env) (city : string) (w w0 : world) :
  ticks w = ticks w0 →
  (get_weather E city w).1 = (get_weather E city w0).1.
Proof.
  intros Ht.
  unfold get_weather, http_get, raise_for_status, response_json, logger_error,
    tick.
  unfold_monad. simpl. rewrite Ht.
  repeat (step_oracle; simpl); reflexivity.
Qed.

(** Under the contract of requests [get_weather] always returns. *)
Lemma get_weather_returns (E : Env) (city : string) (w : world) :
  requests_contract E →
  ∃ r w',
    get_weather E city w = (Ret r, w') ∧
    update_queue w' = update_queue w ∧ status_log w' = status_log w ∧
    status_var w' = status_var w.
Proof.
  intros Hcontract.
  destruct (get_weather_run E city w)
    as (r & w' & Hrun & Hnb & Hraise & _ & _ & _ & _ & _ & Hsv & _ & Hq & _
        & Hs & _).
  destruct r as [r|e|]; [eauto 10| |congruence].
  exfalso. destruct (Hraise e eq_refl) as (Hne & Hby).
  assert (Hreq : ∀ n rq, raised_by E e n rq → is_RequestException e = true).
  { intros n rq [Hh|(r1 & Hh & Hj)]; specialize (Hcontract n rq);
      rewrite Hh in Hcontract; [exact Hcontract|].
    rewrite Hj in Hcontract. exact Hcontract. }
  destruct Hby as [Hby|Hby]; apply Hreq in Hby; congruence.
Qed.

Lemma cycle_under_contract (E : Env) (w : world) (city : string)
    (rest : list string) :
  requests_contract E →
  items (update_queue w) = city :: rest →
  (0 < unfinished_tasks (update_queue w))%nat →
  ∃ w' r,
    (get_weather E city w).1 = Ret r ∧
    update_worker_body E w = (Ret tt, w') ∧
    items (update_queue w') = rest ∧
    unfinished_tasks (update_queue w') = pred (unfinished_tasks (update_queue w)) ∧
    status_var w' = cycle_status E city r ∧
    status_log w' =
      status_log w ++
      ["Fetching weather data for " +:+ city +:+ "..."; cycle_status E city r].
Proof.
  intros Hcontract Hq Hu. unfold update_worker_body.
  unfold try_except, mbind, M_bind. unfold queue_get at 1. rewrite Hq.
  unfold status_var_set at 1, modify at 1.
  set (w1 := set_status _ (set_update_queue _ w)).
  assert (Hres : (get_weather E city w).1 = (get_weather E city w1).1).
  { apply get_weather_result_ticks. reflexivity. }
  destruct (get_weather_returns E city w1 Hcontract)
    as (r & w2 & Hrun & Hq2 & Hs2 & _).
  rewrite Hrun in Hres |- *. simpl in Hres, Hq2, Hs2.
  destruct (unfinished_tasks (update_queue w)) as [|u] eqn:Hu0; [lia|].
  remember (cycle_status E city r) as cs eqn:Hcs.
  destruct r as [data|].
  - destruct (process_weather_data_run E city data w2)
      as (w3 & st & Hp & Hq3 & _ & _ & _ & Hs3 & Hsv3 & _).
    assert (Hst : st = cs).
    { rewrite Hcs. simpl. destruct (make_weather E data) as [e|weather] eqn:Hw.
      - rewrite (process_weather_data_failure E city data e w2 Hw) in Hp.
        inversion Hp; subst. reflexivity.
      - rewrite (process_weather_data_success E city data weather w2 Hw) in Hp.
        inversion Hp; subst. reflexivity. }
    rewrite Hst in Hs3, Hsv3.
    rewrite Hp. unfold task_done. rewrite Hq3, Hq2. simpl.
    eexists _, _. split; [exact Hres|]. split; [reflexivity|]. simpl.
    rewrite Hsv3, Hs3, Hs2. simpl. rewrite <- app_assoc.
    repeat split; rewrite Hcs; reflexivity.
  - simpl in Hcs. subst cs.
    unfold status_var_set, modify, task_done. simpl. rewrite Hq2. simpl.
    eexists _, _. split; [exact Hres|]. split; [reflexivity|]. simpl.
    rewrite Hs2. simpl. rewrite <- app_assoc. repeat split.
Qed.

(** X6. The status tells the outcome.  Under the contract of requests, a
    cycle for a queued location writes exactly two statuses, "Fetching
    weather data for <city>..." and then: "Failed to fetch weather data"
    when [get_weather] returns [None]; "Failed to process weather data"
    when it returns a payload from which no record can be built;
    "Weather updated for <city>" otherwise. *)
Theorem cycle_status_tells_the_outcome
    (E : Env) (w : world) (city : string) (rest : list string) :
  requests_contract E →
  items (update_queue w) = city :: rest →
  (0 < unfinished_tasks (update_queue w))%nat →
  ∃ w' r,
    (get_weather E city w).1 = Ret r ∧
    update_worker_body E w = (Ret tt, w') ∧
    status_var w' =
      match r with
      | None => "Failed to fetch weather data"
      | Some data =>
          match make_weather E data with
          | inr _ => "Weather updated for " +:+ city
          | inl _ => "Failed to process weather data"
          end
      end ∧
    status_log w' =
      status_log w ++
      ["Fetching weather data for " +:+ city +:+ "..."; status_var w'].
Proof.
  intros Hc Hq Hu.
  destruct (cycle_under_contract E w city rest Hc Hq Hu)
    as (w' & r & Hr & Hrun & _ & _ & Hsv & Hs).
  exists w', r. rewrite Hsv. repeat split; assumption.
Qed.

Lemma cycle_status_tells_the_outcome_witness :
  ∃ w' r,
    (get_weather unknown_place "Atlantis" showing_weather).1 = Ret r ∧
    update_worker_body unknown_place showing_weather = (Ret tt, w') ∧
    status_var w' =
      match r with
      | None => "Failed to fetch weather data"
      | Some data =>
          match make_weather unknown_place data with
          | inr _ => "Weather updated for Atlantis"
          | inl _ => "Failed to process weather data"
          end
      end.
Proof.
  destruct (cycle_status_tells_the_outcome unknown_place showing_weather
              "Atlantis" []) as (w' & r & Hr & Hrun & Hsv & _).
  - intros n rq. exact I.
  - reflexivity.
  - simpl. lia.
  - exists w', r. repeat split; assumption.
Defined.

(** *** The bookkeeping of the queue *)

Lemma step_queue_ok (E : Env) (s : system) (ev : event) :
  update_thread s = Alive → queue_ok (gui s) →
  update_thread (step E s ev) = Alive ∧ queue_ok (gui (step E s ev)).
Proof.
  intros Ha Hok. unfold queue_ok in *.
  destruct s as [w t]. simpl in Ha, Hok. subst t. destruct ev as [text|].
  - split; [reflexivity|]. simpl.
    unfold update_weather, queue_put. unfold_monad. simpl.
    destruct (str_truthy (strip text)); simpl; [|exact Hok].
    rewrite length_app. simpl. lia.
  - destruct (items (update_queue w)) as [|city rest] eqn:Hq.
    + simpl. rewrite (update_worker_body_waits E _ Hq).
      split; [reflexivity|]. simpl. rewrite Hq. simpl. lia.
    + destruct (worker_turn_cycle E w city rest Hq)
        as (w' & b & st & Hstep & Hq' & Hu & _).
      rewrite Hstep. simpl in *.
      split; [reflexivity|]. rewrite Hq'. lia.
Qed.

(** X7. [task_done] is never called too often.  The counter of
    unfinished tasks covers the queued items after every sequence of
    searches and worker turns, whatever the outside world does; so
    [task_done] never raises, and a turn of the worker on a queued
    location writes exactly two statuses, the second one final. *)
Theorem task_done_is_never_called_too_often
    (E : Env) (evs : list event) (s : system) :
  update_thread s = Alive →
  queue_ok (gui s) →
  let s' := run E evs s in
  queue_ok (gui s') ∧
  ∀ city rest,
    items (update_queue (gui s')) = city :: rest →
    ∃ st,
      final_status city st ∧
      status_log (gui (step E s' WorkerTurn)) =
        status_log (gui s') ++
        ["Fetching weather data for " +:+ city +:+ "..."; st].
Proof.
  intros Ha Hok. cbv zeta.
  assert (Hinv : update_thread (run E evs s) = Alive
                 ∧ queue_ok (gui (run E evs s))).
  { revert s Ha Hok. induction evs as [|ev evs IH]; intros s Ha Hok.
    - split; assumption.
    - change (run E (ev :: evs) s) with (run E evs (step E s ev)).
      destruct (step_queue_ok E s ev Ha Hok) as [Ha1 Hok1]. apply IH; assumption. }
  destruct Hinv as [Ha' Hok']. split; [exact Hok'|].
  intros city rest Hq.
  destruct (run E evs s) as [w t]. simpl in Ha', Hok', Hq. subst t.
  destruct (worker_turn_cycle E w city rest Hq)
    as (w' & b & st & Hstep & _ & _ & _ & _ & Hfin & Hs).
  rewrite Hstep. cbn [gui].
  exists st. split; [exact Hfin|].
  destruct Hs as [Hs|Hz]; [exact Hs|].
  unfold queue_ok in Hok'. rewrite Hq in Hok'. simpl in Hok'. lia.
Qed.

Lemma task_done_is_never_called_too_often_witness :
  queue_ok (gui (run flaky_network two_searches_one_turn idle)).
Proof.
  apply (task_done_is_never_called_too_often
           flaky_network two_searches_one_turn idle).
  - reflexivity.
  - unfold queue_ok. simpl. lia.
Defined.

Lemma cycle_status_is_no_error (E : Env) (city : string) (r : option payload) :
  cycle_status E city r ≠ "An error occurred".
Proof.
  destruct r as [data|]; simpl; [|discriminate].
  destruct (make_weather E data); discriminate.
Qed.

Lemma step_under_contract (E : Env) (s : system) (ev : event) :
  requests_contract E →
  update_thread s = Alive →
  unfinished_tasks (update_queue (gui s))
    = length (items (update_queue (gui s))) →
  update_thread (step E s ev) = Alive ∧
  unfinished_tasks (update_queue (gui (step E s ev)))
    = length (items (update_queue (gui (step E s ev)))) ∧
  ∃ added,
    status_log (gui (step E s ev)) = status_log (gui s) ++ added ∧
    "An error occurred" ∉ added.
Proof.
  intros Hc Ha Hu. destruct ev as [text|].
  - split; [exact Ha|]. simpl.
    unfold update_weather, queue_put. unfold_monad. simpl.
    destruct (str_truthy (strip text)); simpl.
    + rewrite length_app. simpl. split; [lia|].
      exists []. rewrite app_nil_r. split; [reflexivity|]. apply not_elem_of_nil.
    + split; [exact Hu|].
      exists []. rewrite app_nil_r. split; [reflexivity|]. apply not_elem_of_nil.
  - destruct (items (update_queue (gui s))) as [|city rest] eqn:Hq.
    + simpl. rewrite Ha, (update_worker_body_waits E _ Hq).
      split; [exact Ha|]. rewrite Hq. split; [exact Hu|].
      exists []. rewrite app_nil_r. split; [reflexivity|]. apply not_elem_of_nil.
    + simpl in Hu.
      destruct (cycle_under_contract E (gui s) city rest Hc Hq)
        as (w' & r & _ & Hrun & Hq' & Hu' & _ & Hs); [lia|].
      simpl. rewrite Ha, Hrun. simpl. split; [reflexivity|].
      rewrite Hq', Hu', Hu. split; [reflexivity|].
      eexists. split; [exact Hs|].
      intros Hin. apply elem_of_cons in Hin as [Hin|Hin]; [discriminate|].
      apply elem_of_cons in Hin as [Hin|Hin].
      * symmetry in Hin. exact (cycle_status_is_no_error E city r Hin).
      * exact (not_elem_of_nil _ Hin).
Qed.

Lemma run_under_contract (E : Env) (evs : list event) (s : system) :
  requests_contract E →
  update_thread s = Alive →
  unfinished_tasks (update_queue (gui s))
    = length (items (update_queue (gui s))) →
  unfinished_tasks (update_queue (gui (run E evs s)))
    = length (items (update_queue (gui (run E evs s)))) ∧
  ∃ added,
    status_log (gui (run E evs s)) = status_log (gui s) ++ added ∧
    "An error occurred" ∉ added.
Proof.
  intros Hc. revert s. induction evs as [|ev evs IH]; intros s Ha Hu.
  - split; [exact Hu|]. exists []. rewrite app_nil_r.
    split; [reflexivity|]. apply not_elem_of_nil.
  - change (run E (ev :: evs) s) with (run E evs (step E s ev)).
    destruct (step_under_contract E s ev Hc Ha Hu)
      as (Ha1 & Hu1 & a1 & Hs1 & Hn1).
    destruct (IH (step E s ev) Ha1 Hu1) as (Hu2 & a2 & Hs2 & Hn2).
    split; [exact Hu2|]. exists (a1 ++ a2).
    rewrite Hs2, Hs1, app_assoc. split; [reflexivity|].
    intros Hin. apply elem_of_app in Hin as [Hin|Hin]; auto.
Qed.



(** *** What reaches the provider *)

Lemma drop_spaces_fixed (l : list ascii) :
  (∀ c l', l = c :: l' → isspace c = false) → drop_spaces l = l.
Proof.
  destruct l as [|c l']; [reflexivity|]. intros H. simpl.
  rewrite (H c l' eq_refl). reflexivity.
Qed.

Lemma drop_spaces_idemp (l : list ascii) :
  drop_spaces (drop_spaces l) = drop_spaces l.
Proof.
  apply drop_spaces_fixed. intros c l' H. exact (drop_spaces_head l c l' H).
Qed.

Lemma drop_spaces_suffix (l : list ascii) : ∃ pre, l = pre ++ drop_spaces l.
Proof.
  induction l as [|c l [pre IH]]; [exists []; reflexivity|]. simpl.
  destruct (isspace c).
  - exists (c :: pre). simpl. f_equal. exact IH.
  - exists []. reflexivity.
Qed.

(** [strip] is idempotent. *)
Lemma strip_strip (s : string) : strip (strip s) = strip s.
Proof.
  unfold strip. rewrite list_ascii_of_string_of_list_ascii.
  set (l1 := drop_spaces (list_ascii_of_string s)).
  set (l2 := drop_spaces (rev l1)).
  assert (Hfix : drop_spaces (rev l2) = rev l2).
  { apply drop_spaces_fixed. intros c r' Hr.
    destruct (drop_spaces_suffix (rev l1)) as [pre Hpre]. fold l2 in Hpre.
    assert (Hl1 : l1 = c :: (r' ++ rev pre)).
    { rewrite <- (rev_involutive l1), Hpre, rev_app_distr, Hr. reflexivity. }
    exact (drop_spaces_head _ c _ Hl1). }
  rewrite Hfix, rev_involutive. subst l2. rewrite drop_spaces_idemp.
  reflexivity.
Qed.

Lemma enqueued_stripped (evs : list event) : Forall stripped (enqueued evs).
Proof.
  induction evs as [|ev evs IH]; [constructor|].
  rewrite enqueued_cons. apply Forall_app. split; [|exact IH].
  destruct ev as [text|]; simpl; [|constructor].
  destruct (str_truthy (strip text)) eqn:Ht; simpl; [|constructor].
  repeat constructor; [apply strip_strip|exact Ht].
Qed.

(** X10. The provider is only ever asked about stripped, non-empty
    locations.  When the locations fetched so far and those still queued
    are stripped and non-empty (as at start, when there are none), so are
    they after every sequence of searches and worker turns: no [q]
    parameter starts or ends with whitespace, and none is empty. *)
Theorem provider_is_asked_stripped_locations
    (E : Env) (evs : list event) (s : system) :
  update_thread s = Alive →
  Forall stripped (fetch_calls (gui s) ++ items (update_queue (gui s))) →
  Forall stripped
    (fetch_calls (gui (run E evs s))
     ++ items (update_queue (gui (run E evs s)))).
Proof.
  intros Ha Hs.
  destruct (run_accounts E evs s Ha) as (_ & cities & blocks & Hf & Hl & Hq).
  rewrite (fetch_calls_app _ _ _ Hl), (blocks_fetch_city E _ _ Hf).
  rewrite <- app_assoc, Hq, app_assoc.
  apply Forall_app. split; [exact Hs|apply enqueued_stripped].
Qed.

Lemma provider_is_asked_stripped_locations_witness :
  Forall stripped
    (fetch_calls (gui (run fair_weather two_searches_one_turn idle))
     ++ items (update_queue (gui (run fair_weather two_searches_one_turn idle)))).
Proof.
  apply (provider_is_asked_stripped_locations
           fair_weather two_searches_one_turn idle).
  - reflexivity.
  - simpl. constructor.
Defined.

(** X11. Blank searches reach nothing.  With an empty queue, a sequence
    of events whose searches are all blank leaves the queue empty and
    issues no request; the status, the display and the history file are
    as before, however often the worker looks at the queue. *)
Theorem blank_searches_reach_nothing
    (E : Env) (evs : list event) (s : system) :
  items (update_queue (gui s)) = [] →
  enqueued evs = [] →
  let w' := gui (run E evs s) in
  update_queue w' = update_queue (gui s) ∧ http_log w' = http_log (gui s) ∧
  status_log w' = status_log (gui s) ∧ shown w' = shown (gui s) ∧
  history_file w' = history_file (gui s).
Proof.
  revert s. induction evs as [|ev evs IH]; intros s Hq He; cbv zeta.
  - repeat split.
  - change (run E (ev :: evs) s) with (run E evs (step E s ev)).
    rewrite enqueued_cons in He. apply app_eq_nil in He as [He1 He2].
    assert (Hstep : update_queue (gui (step E s ev)) = update_queue (gui s)
                    ∧ http_log (gui (step E s ev)) = http_log (gui s)
                    ∧ status_log (gui (step E s ev)) = status_log (gui s)
                    ∧ shown (gui (step E s ev)) = shown (gui s)
                    ∧ history_file (gui (step E s ev)) = history_file (gui s)).
    { destruct ev as [text|]; simpl.
      - simpl in He1. unfold update_weather, queue_put. unfold_monad. simpl.
        destruct (str_truthy (strip text)); [discriminate|].
        simpl. repeat split.
      - destruct (update_thread s); [|repeat split].
        rewrite (update_worker_body_waits E _ Hq). repeat split. }
    destruct Hstep as (Hq1 & Hl1 & Hs1 & Hd1 & Hh1).
    destruct (IH (step E s ev)) as (Hq2 & Hl2 & Hs2 & Hd2 & Hh2);
      [rewrite Hq1; exact Hq|exact He2|].
    repeat split; congruence.
Qed.

Lemma blank_searches_reach_nothing_witness :
  http_log (gui (run fair_weather [Search "   "; WorkerTurn; Search ""] idle))
  = http_log (gui idle).
Proof.
  exact (proj1 (proj2 (blank_searches_reach_nothing fair_weather
                         [Search "   "; WorkerTurn; Search ""] idle
                         eq_refl eq_refl))).
Defined.

(** *** The history across cycles *)

(** What one cycle does to the history file: nothing, or one more row for
    the city of the cycle (after the header when the file is created). *)
Lemma cycle_history (E : Env) (w : world) (city : string) (rest : list string) :
  items (update_queue w) = city :: rest →
  ∃ w',
    update_worker_body E w = (Ret tt, w') ∧
    (history_file w' = history_file w
     ∨ ∃ t weather,
         history_file w' =
           Some (match history_file w with
                 | None => [history_header]
                 | Some ls => ls
                 end ++ [history_row t city weather])).
Proof.
  intros Hq. unfold update_worker_body.
  unfold try_except, mbind, M_bind. unfold queue_get at 1. rewrite Hq.
  unfold status_var_set at 1, modify at 1.
  set (w1 := set_status _ (set_update_queue _ w)).
  destruct (get_weather_run E city w1)
    as (r & w2 & -> & Hnb & _ & _ & _ & _ & _ & _ & _ & _ & Hq2 & Hh2 & _).
  simpl in Hq2, Hh2.
  destruct r as [[data|]|e|]; [| | |congruence].
  - assert (Hp : ∃ w3,
               process_weather_data E city data w2 = (Ret tt, w3) ∧
               update_queue w3 = update_queue w2 ∧
               (history_file w3 = history_file w2
                ∨ ∃ t weather,
                    history_file w3 =
                      Some (match history_file w2 with
                            | None => [history_header]
                            | Some ls => ls
                            end ++ [history_row t city weather]))).
    { destruct (make_weather E data) as [e|weather] eqn:Hw.
      - rewrite (process_weather_data_failure E city data e w2 Hw).
        eexists; split; [reflexivity|]. simpl. eauto.
      - rewrite (process_weather_data_success E city data weather w2 Hw).
        destruct (world_at_save_facts E city weather data w2)
          as (_ & _ & _ & _ & Hqs & Hhs & _).
        destruct (save_weather_data_run E city weather
                    (world_at_save E city weather data w2))
          as (w3 & Hrun3 & _ & _ & _ & _ & _ & Hq3 & _).
        destruct (save_weather_data_appends E city weather
                    (world_at_save E city weather data w2))
          as (w3' & Hrun3' & Hh3).
        rewrite Hrun3 in Hrun3'. inversion Hrun3'; subst w3'. rewrite Hrun3.
        eexists; split; [reflexivity|]. simpl. split; [congruence|].
        destruct (to_csv E _); rewrite Hh3, Hhs; eauto. }
    destruct Hp as (w3 & -> & Hq3 & Hh3). rewrite Hh2 in Hh3.
    unfold task_done. rewrite Hq3, Hq2. simpl.
    destruct (unfinished_tasks (update_queue w)).
    + unfold Exception, logger_error, status_var_set, modify. simpl.
      eexists; split; [reflexivity|]. simpl. exact Hh3.
    + eexists; split; [reflexivity|]. simpl. exact Hh3.
  - unfold status_var_set, modify, task_done. simpl. rewrite Hq2. simpl.
    destruct (unfinished_tasks (update_queue w)).
    + unfold Exception, logger_error, modify. simpl.
      eexists; split; [reflexivity|]. simpl. eauto.
    + eexists; split; [reflexivity|]. simpl. eauto.
  - unfold Exception, logger_error, status_var_set, modify. simpl.
    eexists; split; [reflexivity|]. simpl. eauto.
Qed.

Lemma step_history (E : Env) (s : system) (ev : event) :
  (∃ added,
     default [] (history_file (gui (step E s ev)))
       = default [] (history_file (gui s)) ++ added) ∧
  (is_Some (history_file (gui s)) →
   is_Some (history_file (gui (step E s ev)))) ∧
  (well_formed_history (history_file (gui s)) →
   well_formed_history (history_file (gui (step E s ev)))).
Proof.
  assert (Hsame : ∀ s', history_file (gui s') = history_file (gui s) →
            (∃ added,
               default [] (history_file (gui s'))
                 = default [] (history_file (gui s)) ++ added) ∧
            (is_Some (history_file (gui s)) → is_Some (history_file (gui s'))) ∧
            (well_formed_history (history_file (gui s)) →
             well_formed_history (history_file (gui s')))).
  { intros s' ->. split; [exists []; rewrite app_nil_r; reflexivity|].
    split; auto. }
  destruct ev as [text|].
  - apply Hsame. simpl. unfold update_weather, queue_put. unfold_monad. simpl.
    destruct (str_truthy (strip text)); reflexivity.
  - simpl. destruct (update_thread s); [|apply Hsame; reflexivity].
    destruct (items (update_queue (gui s))) as [|city rest] eqn:Hq.
    + rewrite (update_worker_body_waits E _ Hq). apply Hsame. reflexivity.
    + destruct (cycle_history E (gui s) city rest Hq)
        as (w' & -> & [Hh|(t & weather & Hh)]).
      * apply Hsame. exact Hh.
      * simpl. rewrite Hh. split; [|split].
        -- destruct (history_file (gui s)); simpl; eauto.
        -- intros _. eauto.
        -- apply well_formed_history_append. reflexivity.
Qed.

(** X12. The history is append-only across the whole run.  After every
    sequence of searches and worker turns, whatever fails on the way, the
    history file holds its former lines followed by new ones: a file that
    exists is never removed or rewritten, and a file that has the header
    as first line and rows below keeps that form. *)
Theorem history_is_append_only (E : Env) (evs : list event) (s : system) :
  (∃ added,
     default [] (history_file (gui (run E evs s)))
       = default [] (history_file (gui s)) ++ added) ∧
  (is_Some (history_file (gui s)) →
   is_Some (history_file (gui (run E evs s)))) ∧
  (well_formed_history (history_file (gui s)) →
   well_formed_history (history_file (gui (run E evs s)))).
Proof.
  revert s. induction evs as [|ev evs IH]; intros s.
  - split; [exists []; rewrite app_nil_r; reflexivity|]. split; auto.
  - change (run E (ev :: evs) s) with (run E evs (step E s ev)).
    destruct (step_history E s ev) as ([a1 H1] & Hs1 & Hw1).
    destruct (IH (step E s ev)) as ([a2 H2] & Hs2 & Hw2).
    split; [|split; auto].
    exists (a1 ++ a2). rewrite H2, H1, app_assoc. reflexivity.
Qed.

Lemma history_is_append_only_witness :
  well_formed_history
    (history_file
       (gui (run flaky_network two_searches_one_turn
               {| gui := showing_weather; update_thread := Alive |}))).
Proof.
  apply (proj2 (proj2 (history_is_append_only flaky_network
                         two_searches_one_turn
                         {| gui := showing_weather; update_thread := Alive |}))).
  simpl. eexists. split; [reflexivity|]. repeat constructor.
Defined.

(** *** pro.py *)

(** [fetch_weather] issues its one request and touches nothing else. *)
Lemma pro_fetch_weather_world (E : Env) (city : string) (pw : Pro.world) :
  (Pro.fetch_weather E city pw).2 = Pro.called (pro_request city) pw
  ∧ (Pro.fetch_weather E city pw).1 ≠ Block.
Proof.
  unfold Pro.fetch_weather, Pro.requests_get. unfold_monad. cbn beta.
  fold (pro_request city). simpl.
  destruct (http E (Pro.ticks pw) (pro_request city)) as [e|r]; simpl;
    [split; [reflexivity|discriminate]|].
  destruct (status_code r =? 200); simpl; [|split; [reflexivity|discriminate]].
  destruct (json_result r) as [e|data]; simpl;
    [split; [reflexivity|discriminate]|].
  unfold sum_exn_bind, and_then.
  destruct (getitem data "current") as [e|cur]; simpl;
    [split; [reflexivity|discriminate]|].
  destruct (getitem cur "temp_c"); simpl; [split; [reflexivity|discriminate]|].
  destruct (getitem cur "condition") as [e|cond]; simpl;
    [split; [reflexivity|discriminate]|].
  destruct (getitem cond "text"); simpl; [split; [reflexivity|discriminate]|].
  destruct (getitem cur "humidity"); simpl;
    [split; [reflexivity|discriminate]|].
  destruct (getitem cond "icon"); simpl; split; reflexivity || discriminate.
Qed.

Lemma pro_fetch_exceptions_escape_helper
    (E : Env) (pw pw1 : Pro.world) (e : exn) :
  Pro.fetch_weather E (Pro.city_entry pw) pw = (Raise e, pw1) →
  Pro.update_weather E pw = (Raise e, pw1) ∧
  pw1 = Pro.called (pro_request (Pro.city_entry pw)) pw.
Proof.
  intros Hf. split.
  - unfold Pro.update_weather. unfold mbind, M_bind at 1 2. unfold gets at 1.
    rewrite Hf. reflexivity.
  - destruct (pro_fetch_weather_world E (Pro.city_entry pw) pw) as [Hw _].
    rewrite Hf in Hw. simpl in Hw. congruence.
Qed.

(** X13. pro.py has no handler.  An exception raised in [fetch_weather]
    (the request raises, the body of a 200 response does not parse or
    lacks a key) leaves [update_weather] as it is, with the labels, the
    icon and the history file untouched. *)
Theorem pro_fetch_exceptions_escape
    (E : Env) (pw pw1 : Pro.world) (e : exn) :
  Pro.fetch_weather E (Pro.city_entry pw) pw = (Raise e, pw1) →
  Pro.update_weather E pw = (Raise e, pw1) ∧
  Pro.temp_label pw1 = Pro.temp_label pw ∧
  Pro.condition_label pw1 = Pro.condition_label pw ∧
  Pro.humidity_label pw1 = Pro.humidity_label pw ∧
  Pro.icon_label pw1 = Pro.icon_label pw ∧
  Pro.history_file pw1 = Pro.history_file pw.
Proof.
  intros Hf.
  destruct (pro_fetch_exceptions_escape_helper E pw pw1 e Hf) as [Hrun ->].
  split; [exact Hrun|]. repeat split.
Qed.

Lemma pro_fetch_exceptions_escape_witness :
  Pro.update_weather flaky_network pro_showing
  = (Raise (RequestException "ConnectionError"),
     Pro.called (pro_request "Atlantis") pro_showing).
Proof.
  exact (proj1 (pro_fetch_exceptions_escape flaky_network pro_showing
                  (Pro.called (pro_request "Atlantis") pro_showing)
                  (RequestException "ConnectionError") eq_refl)).
Defined.

(** X14. A null temperature counts as a failed fetch.  When the provider
    answers 200 and the body has every key but [temp_c] is null,
    [update_weather] shows "Error fetching data", clears the condition,
    the humidity and the icon, writes no row and issues no icon request. *)
Theorem pro_null_temperature_clears_the_display
    (E : Env) (pw pw1 : Pro.world) (c h i : pyval) :
  Pro.fetch_weather E (Pro.city_entry pw) pw = (Ret (PNone, c, h, i), pw1) →
  ∃ pw',
    Pro.update_weather E pw = (Ret tt, pw') ∧
    Pro.temp_label pw' = "Error fetching data" ∧
    Pro.condition_label pw' = "" ∧ Pro.humidity_label pw' = "" ∧
    Pro.icon_label pw' = None ∧
    Pro.history_file pw' = Pro.history_file pw ∧
    Pro.http_log pw' = Pro.http_log pw ++ [pro_request (Pro.city_entry pw)].
Proof.
  intros Hf.
  destruct (pro_fetch_weather_world E (Pro.city_entry pw) pw) as [Hw _].
  rewrite Hf in Hw. simpl in Hw. subst pw1.
  unfold Pro.update_weather. unfold mbind, M_bind at 1 2. unfold gets at 1.
  rewrite Hf. simpl. unfold_monad. simpl.
  eexists; split; [reflexivity|]. simpl. repeat split.
Qed.

Lemma pro_null_temperature_clears_the_display_witness :
  ∃ pw',
    Pro.update_weather null_temperature pro_showing = (Ret tt, pw') ∧
    Pro.temp_label pw' = "Error fetching data" ∧
    Pro.history_file pw' = Pro.history_file pro_showing.
Proof.
  destruct (pro_null_temperature_clears_the_display null_temperature
              pro_showing (Pro.called (pro_request "Atlantis") pro_showing)
              (PStr "Cloudy") (PInt 80) (PStr "//cdn.weatherapi.com/119.png")
              eq_refl)
    as (pw' & Hrun & Ht & _ & _ & _ & Hh & _).
  exists pw'. repeat split; assumption.
Defined.

(** X15. The successful path of pro.py: the three labels show the
    formatted values, one row of four cells is appended to the history
    file, and then the icon is fetched and shown. *)
Theorem pro_update_weather_success
    (E : Env) (pw pw1 : Pro.world) (t c h i : pyval) (r : response) :
  Pro.fetch_weather E (Pro.city_entry pw) pw = (Ret (t, c, h, i), pw1) →
  Pro.is_not_None t = true →
  to_csv E (Pro.ticks pw1) = None →
  http E (S (Pro.ticks pw1)) (icon_request ("http:" +:+ py_str E i))
    = HttpResponse r →
  photo_image E (content r) = None →
  ∃ pw',
    Pro.update_weather E pw = (Ret tt, pw') ∧
    Pro.temp_label pw' = py_str E t +:+ String degree_sign "C" ∧
    Pro.condition_label pw' = py_str E c ∧
    Pro.humidity_label pw' = py_str E h +:+ "%" ∧
    Pro.icon_label pw' = Some (content r) ∧
    Pro.history_file pw' =
      Some (default [] (Pro.history_file pw)
            ++ [Row [CValue (PStr (Pro.city_entry pw)); CValue t; CValue c;
                     CValue h]]).
Proof.
  intros Hf Ht Hcsv Hicon Hphoto.
  destruct (pro_fetch_weather_world E (Pro.city_entry pw) pw) as [Hw _].
  rewrite Hf in Hw. simpl in Hw. subst pw1.
  unfold Pro.update_weather. unfold mbind, M_bind at 1 2. unfold gets at 1.
  rewrite Hf, Ht.
  unfold Pro.save_to_csv, Pro.requests_get. unfold_monad. simpl.
  simpl in Hcsv, Hicon. rewrite Hcsv. simpl.
  unfold icon_request in Hicon. rewrite Hicon. simpl. rewrite Hphoto.
  eexists; split; [reflexivity|]. simpl. repeat split.
Qed.

Lemma pro_update_weather_success_witness :
  ∃ pw',
    Pro.update_weather fair_weather pro_fresh = (Ret tt, pw') ∧
    Pro.temp_label pw' = "15.0" +:+ String degree_sign "C" ∧
    Pro.icon_label pw' = Some "PNG".
Proof.
  destruct (pro_update_weather_success fair_weather pro_fresh
              (Pro.called (pro_request "London") pro_fresh)
              (PFloat (float_of_Z 15)) (PStr "Cloudy") (PInt 80)
              (PStr "//cdn.weatherapi.com/weather/64x64/day/119.png")
              icon_response)
    as (pw' & Hrun & Ht & _ & _ & Hi & _).
  - vm_compute. reflexivity.
  - reflexivity.
  - reflexivity.
  - reflexivity.
  - reflexivity.
  - exists pw'. repeat split; assumption.
Defined.

(** X16. pro.py saves before it fetches the icon.  When the icon request
    raises, the exception escapes [update_weather], but the row is
    already in the history file and the labels already show the new
    weather; the icon is the previous one. *)
Theorem pro_row_is_saved_before_the_icon
    (E : Env) (pw pw1 : Pro.world) (t c h i : pyval) (e : exn) :
  Pro.fetch_weather E (Pro.city_entry pw) pw = (Ret (t, c, h, i), pw1) →
  Pro.is_not_None t = true →
  to_csv E (Pro.ticks pw1) = None →
  http E (S (Pro.ticks pw1)) (icon_request ("http:" +:+ py_str E i))
    = HttpRaises e →
  ∃ pw',
    Pro.update_weather E pw = (Raise e, pw') ∧
    Pro.temp_label pw' = py_str E t +:+ String degree_sign "C" ∧
    Pro.icon_label pw' = Pro.icon_label pw ∧
    Pro.history_file pw' =
      Some (default [] (Pro.history_file pw)
            ++ [Row [CValue (PStr (Pro.city_entry pw)); CValue t; CValue c;
                     CValue h]]).
Proof.
  intros Hf Ht Hcsv Hicon.
  destruct (pro_fetch_weather_world E (Pro.city_entry pw) pw) as [Hw _].
  rewrite Hf in Hw. simpl in Hw. subst pw1.
  unfold Pro.update_weather. unfold mbind, M_bind at 1 2. unfold gets at 1.
  rewrite Hf, Ht.
  unfold Pro.save_to_csv, Pro.requests_get. unfold_monad. simpl.
  simpl in Hcsv, Hicon. rewrite Hcsv. simpl.
  unfold icon_request in Hicon. rewrite Hicon. simpl.
  eexists; split; [reflexivity|]. simpl. repeat split.
Qed.

Lemma pro_row_is_saved_before_the_icon_witness :
  ∃ pw',
    Pro.update_weather icon_down pro_fresh
      = (Raise (RequestException "ConnectionError"), pw') ∧
    Pro.history_file pw' =
      Some [Row [CValue (PStr "London"); CValue (PFloat (float_of_Z 15));
                 CValue (PStr "Cloudy"); CValue (PInt 80)]].
Proof.
  destruct (pro_row_is_saved_before_the_icon icon_down pro_fresh
              (Pro.called (pro_request "London") pro_fresh)
              (PFloat (float_of_Z 15)) (PStr "Cloudy") (PInt 80)
              (PStr "//cdn.weatherapi.com/weather/64x64/day/119.png")
              (RequestException "ConnectionError"))
    as (pw' & Hrun & _ & _ & Hh).
  - vm_compute. reflexivity.
  - reflexivity.
  - reflexivity.
  - reflexivity.
  - exists pw'. split; assumption.
Defined.

(** X17. In pro.py a failed write is not caught.  When [to_csv] raises,
    the exception escapes [update_weather] after the labels were updated:
    the window shows the new weather, the history file is as before, and
    the icon is neither requested nor changed. *)
Theorem pro_failed_write_escapes
    (E : Env) (pw pw1 : Pro.world) (t c h i : pyval) (e : exn) :
  Pro.fetch_weather E (Pro.city_entry pw) pw = (Ret (t, c, h, i), pw1) →
  Pro.is_not_None t = true →
  to_csv E (Pro.ticks pw1) = Some e →
  ∃ pw',
    Pro.update_weather E pw = (Raise e, pw') ∧
    Pro.temp_label pw' = py_str E t +:+ String degree_sign "C" ∧
    Pro.condition_label pw' = py_str E c ∧
    Pro.humidity_label pw' = py_str E h +:+ "%" ∧
    Pro.icon_label pw' = Pro.icon_label pw ∧
    Pro.history_file pw' = Pro.history_file pw ∧
    Pro.http_log pw' = Pro.http_log pw ++ [pro_request (Pro.city_entry pw)].
Proof.
  intros Hf Ht Hcsv.
  destruct (pro_fetch_weather_world E (Pro.city_entry pw) pw) as [Hw _].
  rewrite Hf in Hw. simpl in Hw. subst pw1.
  unfold Pro.update_weather. unfold mbind, M_bind at 1 2. unfold gets at 1.
  rewrite Hf, Ht.
  unfold Pro.save_to_csv. unfold_monad. simpl.
  simpl in Hcsv. rewrite Hcsv.
  eexists; split; [reflexivity|]. simpl. repeat split.
Qed.

Lemma pro_failed_write_escapes_witness :
  ∃ pw',
    Pro.update_weather read_only_disk pro_fresh
      = (Raise (OSError "[Errno 30] Read-only file system"), pw') ∧
    Pro.temp_label pw' = "15.0" +:+ String degree_sign "C" ∧
    Pro.history_file pw' = None.
Proof.
  destruct (pro_failed_write_escapes read_only_disk pro_fresh
              (Pro.called (pro_request "London") pro_fresh)
              (PFloat (float_of_Z 15)) (PStr "Cloudy") (PInt 80)
              (PStr "//cdn.weatherapi.com/weather/64x64/day/119.png")
              (OSError "[Errno 30] Read-only file system"))
    as (pw' & Hrun & Ht & _ & _ & _ & Hh & _).
  - vm_compute. reflexivity.
  - reflexivity.
  - reflexivity.
  - exists pw'. repeat split; assumption.
Defined.

(** X18. The periodic refresh of pro.py does not survive an exception.
    [update_weather_periodically] arms its next 10-minute timer only
    after [update_weather] has returned: when the provider answers with a
    status other than 200 the timer is armed, but when [fetch_weather]
    raises (a network error is enough) the exception escapes before
    [root.after] is reached and no further refresh is scheduled. *)
Theorem periodic_refresh_stops_on_an_exception
    (E : Env) (s : ProTimer.timed) :
  (∀ e pw1,
     Pro.fetch_weather E (Pro.city_entry (ProTimer.window s)) (ProTimer.window s)
       = (Raise e, pw1) →
     ProTimer.update_weather_periodically E s =
       (Raise e,
        {| ProTimer.window := pw1;
           ProTimer.after_calls := ProTimer.after_calls s |})) ∧
  (∀ r,
     http E (Pro.ticks (ProTimer.window s))
       (pro_request (Pro.city_entry (ProTimer.window s))) = HttpResponse r →
     status_code r ≠ 200 →
     ∃ s',
       ProTimer.update_weather_periodically E s = (Ret tt, s') ∧
       ProTimer.after_calls s' = ProTimer.after_calls s ++ [600000] ∧
       Pro.temp_label (ProTimer.window s') = "Error fetching data").
Proof.
  split.
  - intros e pw1 Hf.
    destruct (pro_fetch_exceptions_escape_helper E (ProTimer.window s) pw1 e Hf)
      as [Hrun _].
    unfold ProTimer.update_weather_periodically, ProTimer.on_window.
    unfold mbind, M_bind. rewrite Hrun. reflexivity.
  - intros r Hr Hs.
    unfold ProTimer.update_weather_periodically, ProTimer.on_window,
      ProTimer.root_after.
    unfold mbind, M_bind, modify.
    rewrite (pro_failed_fetch_clears E (ProTimer.window s) r Hr Hs).
    eexists; split; [reflexivity|]. simpl. split; reflexivity.
Qed.

Lemma periodic_refresh_stops_on_an_exception_witness :
  ProTimer.update_weather_periodically flaky_network
    {| ProTimer.window := pro_showing; ProTimer.after_calls := [] |}
  = (Raise (RequestException "ConnectionError"),
     {| ProTimer.window := Pro.called (pro_request "Atlantis") pro_showing;
        ProTimer.after_calls := [] |}).
Proof.
  exact (proj1 (periodic_refresh_stops_on_an_exception flaky_network
                  {| ProTimer.window := pro_showing;
                     ProTimer.after_calls := [] |})
           (RequestException "ConnectionError")
           (Pro.called (pro_request "Atlantis") pro_showing) eq_refl).
Defined.

(** *** Start-up, and the two ways a fetch can end badly *)

(** X20. An exception that [get_weather] does not handle skips
    [task_done].  When [get_weather] raises (anything but a
    [RequestException]), the worker's own handler ends the cycle with the
    status "An error occurred" and one log line: the request is off the
    queue but was never marked done, and the display and the history are
    untouched. *)
Theorem escaped_exception_skips_task_done
    (E : Env) (w : world) (city : string) (rest : list string) (e : exn) :
  items (update_queue w) = city :: rest →
  (get_weather E city w).1 = Raise e →
  ∃ w',
    update_worker_body E w = (Ret tt, w') ∧
    status_var w' = "An error occurred" ∧
    status_log w' =
      status_log w ++
      ["Fetching weather data for " +:+ city +:+ "..."; "An error occurred"] ∧
    last (error_log w') = Some ("Update worker error: " +:+ exn_str e) ∧
    items (update_queue w') = rest ∧
    unfinished_tasks (update_queue w') = unfinished_tasks (update_queue w) ∧
    shown w' = shown w ∧ history_file w' = history_file w.
Proof.
  intros Hq Hraise. unfold update_worker_body.
  unfold try_except, mbind, M_bind. unfold queue_get at 1. rewrite Hq.
  unfold status_var_set at 1, modify at 1.
  set (w1 := set_status _ (set_update_queue _ w)).
  assert (Hres : (get_weather E city w1).1 = Raise e).
  { rewrite <- Hraise. apply get_weather_result_ticks. reflexivity. }
  destruct (get_weather_run E city w1)
    as (r & w2 & Hrun & _ & _ & _ & _ & _ & _ & Hsh & _ & _ & Hq2 & Hh
        & Hs & _).
  rewrite Hrun in Hres |- *. simpl in Hres. subst r.
  simpl in Hsh, Hq2, Hh, Hs.
  unfold Exception, logger_error, status_var_set, modify. simpl.
  eexists; split; [reflexivity|]. simpl.
  rewrite Hq2, Hs, Hsh, Hh, <- app_assoc, last_snoc. simpl. repeat split.
Qed.

Lemma escaped_exception_skips_task_done_witness :
  ∃ w',
    update_worker_body old_requests (waiting ["London"]) = (Ret tt, w') ∧
    status_var w' = "An error occurred" ∧
    items (update_queue w') = [] ∧
    unfinished_tasks (update_queue w') = 1%nat.
Proof.
  destruct (escaped_exception_skips_task_done old_requests
              (waiting ["London"]) "London" []
              (ValueError "Expecting value") eq_refl eq_refl)
    as (w' & Hrun & Hsv & _ & _ & Hq & Hu & _).
  exists w'. repeat split; assumption.
Defined.

(** X21. [get_weather] logs each failure it handles, once.  When it
    returns [None] the log has one more line, "API request failed: "
    followed by the text of a [RequestException]; in every other case
    (a payload, or an exception it lets through) it logs nothing.  The
    display, the status, the queue and the history are never touched. *)
Theorem get_weather_logs_each_failure (E : Env) (city : string) (w : world) :
  ∃ r w',
    get_weather E city w = (r, w') ∧
    (r = Ret None →
     ∃ e,
       is_RequestException e = true ∧
       error_log w' = error_log w ++ ["API request failed: " +:+ exn_str e]) ∧
    (r ≠ Ret None → error_log w' = error_log w) ∧
    shown w' = shown w ∧ status_log w' = status_log w ∧
    update_queue w' = update_queue w ∧ history_file w' = history_file w.
Proof.
  unfold get_weather, http_get, raise_for_status, response_json, logger_error,
    tick.
  unfold_monad. simpl.
  repeat (step_oracle; simpl).
  all: eexists _, _; split; [reflexivity|]; simpl.
  all: repeat split; try congruence; eauto.
  all: try (intros _; eexists; split; [|reflexivity]; first [assumption|reflexivity]).
  all: match goal with
       | |- _ → ∃ e, _ ∧ _ ++ [_ +:+ ?m] = _ =>
           intros _; exists (RequestException m); split; reflexivity
       end.
Qed.

Example get_weather_logs_not_found :
  error_log (get_weather unknown_place "Atlantis" empty_world).2
  = ["API request failed: HTTPError: 404"].
Proof. vm_compute. reflexivity. Qed.

(* ================================================================= *)
(** * The worker when Tk can refuse a write *)

Section TkWorker.

Context (E : Env) (tk : tk_oracle).







End TkWorker.

(** *** A Tk that accepts every write changes nothing *)

Section TkFine.

Context (E : Env) (tk : tk_oracle) (Hfine : tk_fine tk).

Lemma tk_write_fine target text store w :
  Tk.write tk target text store w = (Ret tt, store w).
Proof. unfold Tk.write. rewrite Hfine. reflexivity. Qed.

Lemma tk_update_ui_fine city weather w :
  Tk.update_ui E tk city weather w = update_ui E city weather w.
Proof.
  unfold Tk.update_ui, update_ui. unfold mbind, M_bind. cbn zeta.
  rewrite !tk_write_fine. unfold modify, Tk.show. cbn [fst snd].
  unfold try_except, mbind, M_bind.
  destruct (http_get E (icon_url weather) [] _) as [[response|e|] w1];
    try reflexivity.
  destruct (photo_image E (content response)); [reflexivity|].
  rewrite tk_write_fine. reflexivity.
Qed.

Lemma tk_process_weather_data_fine city data w :
  Tk.process_weather_data E tk city data w = process_weather_data E city data w.
Proof.
  unfold Tk.process_weather_data, process_weather_data.
  unfold Tk.status_var_set, status_var_set, modify.
  unfold try_except, mbind, M_bind.
  destruct (lift (make_weather E data) w) as [[weather|e|] w0].
  - rewrite tk_update_ui_fine.
    destruct (update_ui E city weather w0) as [[[]|e|] w1].
    + destruct (update_forecast_graph E (forecast data) w1) as [[[]|e|] w2].
      * destruct (save_weather_data E city weather w2) as [[[]|e|] w3].
        -- rewrite tk_write_fine. reflexivity.
        -- destruct (Exception e); [|reflexivity].
           destruct (logger_error _ w3) as [[[]|e'|] w4]; try reflexivity.
           apply tk_write_fine.
        -- reflexivity.
      * destruct (Exception e); [|reflexivity].
        destruct (logger_error _ w2) as [[[]|e'|] w4]; try reflexivity.
        apply tk_write_fine.
      * reflexivity.
    + destruct (Exception e); [|reflexivity].
      destruct (logger_error _ w1) as [[[]|e'|] w4]; try reflexivity.
      apply tk_write_fine.
    + reflexivity.
  - destruct (Exception e); [|reflexivity].
    destruct (logger_error _ w0) as [[[]|e'|] w4]; try reflexivity.
    apply tk_write_fine.
  - reflexivity.
Qed.

Lemma tk_update_worker_body_fine w :
  Tk.update_worker_body E tk w = update_worker_body E w.
Proof.
  unfold Tk.update_worker_body, update_worker_body.
  unfold Tk.status_var_set, status_var_set, modify.
  unfold try_except, mbind, M_bind.
  assert (Hh : ∀ e wx,
            match logger_error ("Update worker error: " +:+ exn_str e) wx with
            | (Ret _, s') =>
                Tk.write tk StatusVar "An error occurred"
                  (set_status "An error occurred") s'
            | (Raise e0, s') => (Raise e0, s')
            | (Block, s') => (Block, s')
            end =
            match logger_error ("Update worker error: " +:+ exn_str e) wx with
            | (Ret _, s') => (Ret tt, set_status "An error occurred" s')
            | (Raise e0, s') => (Raise e0, s')
            | (Block, s') => (Block, s')
            end).
  { intros e wx. destruct (logger_error _ wx) as [[[]|e'|] wy];
      try reflexivity. apply tk_write_fine. }
  destruct (queue_get w) as [[city|e|] w0]; [|apply Hh|reflexivity].
  rewrite tk_write_fine. cbn [fst snd].
  destruct (get_weather E city _) as [[[data|]|e|] w2];
    [| |apply Hh|reflexivity].
  - rewrite tk_process_weather_data_fine.
    destruct (process_weather_data E city data w2) as [[[]|e|] w3];
      [|apply Hh|reflexivity].
    destruct (task_done w3) as [[[]|e|] w4]; [reflexivity|apply Hh|reflexivity].
  - rewrite tk_write_fine.
    destruct (task_done _) as [[[]|e|] w4]; [reflexivity|apply Hh|reflexivity].
Qed.

Lemma tk_update_worker_fine fuel w :
  Tk.update_worker E tk fuel w = update_worker E fuel w.
Proof.
  revert w. induction fuel as [|fuel IH]; intros w; [reflexivity|].
  simpl. unfold mbind, M_bind. rewrite tk_update_worker_body_fine.
  destruct (update_worker_body E w) as [[[]|e|] w1]; try reflexivity.
  apply IH.
Qed.

Lemma tk_step_fine s ev : Tk.step E tk s ev = step E s ev.
Proof.
  destruct ev as [text|]; [reflexivity|]. simpl.
  rewrite tk_update_worker_body_fine. reflexivity.
Qed.

Lemma tk_run_fine evs s : Tk.run E tk evs s = run E evs s.
Proof.
  revert s. induction evs as [|ev evs IH]; intros s; [reflexivity|].
  unfold Tk.run, run in *. simpl. rewrite tk_step_fine. apply IH.
Qed.

End TkFine.

(** *** C1: the survival of the worker *)




(** When only the handler's write is accepted, every request is taken and
    reported as an error, none is fetched, and the worker lives on. *)
Example worker_with_a_last_resort :
  let r := Tk.update_worker fair_weather tk_last_resort 3
             (waiting ["Paris"; "London"]) in
  r.1 = Block ∧ fetch_calls r.2 = [] ∧
  status_log r.2 = ["An error occurred"; "An error occurred"].
Proof. vm_compute. repeat split; reflexivity. Qed.

(** *** X9: when "An error occurred" can be shown *)

(** X9. The handler of the worker loop is a safety net for Tk only.
    Under the contract of requests, with the counter of the queue in
    step, and as long as Tk accepts the writes of the worker thread, no
    sequence of searches and worker turns writes the status "An error
    occurred": every failure of the provider, of the payload, of the icon,
    of the graph and of the disk is reported by the more specific status
    or log line of the step that caught it. *)
Theorem an_error_occurred_needs_a_refused_write
    (E : Env) (tk : tk_oracle) (evs : list event) (s : system) :
  requests_contract E →
  tk_fine tk →
  update_thread s = Alive →
  unfinished_tasks (update_queue (gui s))
    = length (items (update_queue (gui s))) →
  update_thread (Tk.run E tk evs s) = Alive ∧
  ∃ added,
    status_log (gui (Tk.run E tk evs s)) = status_log (gui s) ++ added ∧
    "An error occurred" ∉ added.
Proof.
  intros Hc Hfine Ha Hu. rewrite (tk_run_fine E tk Hfine).
  split; [apply (run_accounts E evs s Ha)|].
  apply (run_under_contract E evs s Hc Ha Hu).
Qed.

Lemma an_error_occurred_needs_a_refused_write_witness :
  ∃ added,
    status_log (gui (Tk.run unknown_place tk_up two_searches_one_turn idle))
      = status_log (gui idle) ++ added ∧
    "An error occurred" ∉ added.
Proof.
  apply (an_error_occurred_needs_a_refused_write
           unknown_place tk_up two_searches_one_turn idle).
  - intros n rq. exact I.
  - intros target n text. reflexivity.
  - reflexivity.
  - reflexivity.
Defined.

(** With a Tk that refuses the "Fetching" status, the same provider and
    the same events do show it. *)
Example an_error_occurred_after_a_refused_write :
  status_log
    (gui (Tk.run unknown_place tk_last_resort two_searches_one_turn idle))
  = ["An error occurred"].
Proof. vm_compute. reflexivity. Qed.

(** *** X19: start-up *)




Example default_city_then_a_search :
  let s := run fair_weather
             (startup fair_weather 2 ++ [WorkerTurn; Search "Paris"; WorkerTurn])
             idle in
  fetch_calls (gui s) = ["London"; "Paris"] ∧ items (update_queue (gui s)) = [].
Proof. vm_compute. split; reflexivity. Qed.

(** *** C7: what an append writes *)

Lemma save_all_cons (E : Env) (city : string) (weather : WeatherData)
    (records : list (string * WeatherData)) (w : world) :
  save_all E ((city, weather) :: records) w
  = save_all E records (save_weather_data E city weather w).2.
Proof. reflexivity. Qed.

(** Successful appends, one after the other: one row each, below the
    lines the file had (or below the header of a new file). *)
Lemma save_all_successful (E : Env) :
  (∀ n, to_csv E n = None) →
  ∀ records w,
    records ≠ [] →
    ∃ rows,
      history_file (save_all E records w)
        = Some (history_base (history_file w) ++ rows) ∧
      length rows = length records ∧
      Forall (fun l => is_header l = false) rows.
Proof.
  intros Hcsv records. induction records as [|[city weather] records IH];
    intros w Hne; [congruence|].
  rewrite save_all_cons.
  destruct (save_weather_data_appends E city weather w) as (w1 & Hrun & Hh).
  rewrite Hcsv in Hh. rewrite Hrun. cbn [snd].
  destruct records as [|r records].
  - exists [history_row (now E (ticks w)) city weather].
    repeat split; [exact Hh|]. repeat constructor.
  - destruct (IH w1) as (rows & Hrows & Hlen & Hall); [discriminate|].
    exists (history_row (now E (ticks w)) city weather :: rows).
    rewrite Hrows, Hh. cbn [history_base]. rewrite <- app_assoc.
    split; [reflexivity|]. split; [simpl in *; lia|].
    constructor; [reflexivity|exact Hall].
Qed.

(** C7, as the code has it.  A successful append of the dashboard adds
    exactly one row, whose cells are, in this order, the timestamp of the
    call, the city, and the temperature, condition, humidity, wind speed
    and pressure of the record as they are; the header is written before
    the row exactly when the file did not exist.  After any number of
    successful appends a file the dashboard created, or found with its
    header, has the header once, as first line, and one row per append.
    pro.py's [save_to_csv] appends one row of four cells (city,
    temperature, condition, humidity) and never writes a header. *)
Theorem history_append_writes_one_row (E : Env) :
  (∀ city weather w,
     to_csv E (S (ticks w)) = None →
     ∃ w',
       save_weather_data E city weather w = (Ret tt, w') ∧
       history_file w' =
         Some (history_base (history_file w)
               ++ [Row [CTimestamp (now E (ticks w)); CValue (PStr city);
                        CValue (temperature weather);
                        CValue (condition weather);
                        CValue (humidity weather);
                        CValue (wind_speed weather);
                        CValue (pressure weather)]])) ∧
  (∀ records w,
     (∀ n, to_csv E n = None) →
     well_formed_history (history_file w) →
     records ≠ [] →
     ∃ rows,
       history_file (save_all E records w)
         = Some (history_base (history_file w) ++ rows) ∧
       length rows = length records ∧
       header_count (history_file (save_all E records w)) = 1%nat ∧
       head (history_base (history_file w) ++ rows) = Some history_header) ∧
  (∀ city t c h pw,
     to_csv E (Pro.ticks pw) = None →
     ∃ pw',
       Pro.save_to_csv E city t c h pw = (Ret tt, pw') ∧
       Pro.history_file pw' =
         Some (default [] (Pro.history_file pw)
               ++ [Row [CValue (PStr city); CValue t; CValue c; CValue h]])).
Proof.
  split; [|split].
  - intros city weather w Hcsv.
    destruct (save_weather_data_appends E city weather w) as (w' & Hrun & Hf).
    rewrite Hcsv in Hf. exists w'. split; [exact Hrun|exact Hf].
  - intros records w Hcsv Hw Hne.
    destruct (save_all_successful E Hcsv records w Hne)
      as (rows & Hrows & Hlen & Hall).
    exists rows. split; [exact Hrows|]. split; [exact Hlen|].
    assert (Hwf : well_formed_history
                    (Some (history_base (history_file w) ++ rows))).
    { destruct (history_file w) as [ls|]; simpl in Hw |- *.
      - destruct Hw as (rows0 & -> & Hrows0). exists (rows0 ++ rows).
        split; [reflexivity|]. apply Forall_app. split; assumption.
      - exists rows. split; [reflexivity|exact Hall]. }
    rewrite Hrows. split; [apply well_formed_header_count; exact Hwf|].
    destruct Hwf as (rows1 & -> & _). reflexivity.
  - intros city t c h pw Hcsv.
    unfold Pro.save_to_csv. unfold_monad. cbn beta. rewrite Hcsv.
    eexists; split; [reflexivity|]. reflexivity.
Qed.

Lemma history_append_writes_one_row_witness :
  ∃ w',
    save_weather_data fair_weather "London" london_record empty_world
      = (Ret tt, w') ∧
    history_file w' =
      Some [history_header;
            history_row 1730710800 "London" london_record].
Proof.
  destruct (proj1 (history_append_writes_one_row fair_weather)
              "London" london_record empty_world eq_refl)
    as (w' & Hrun & Hf).
  exists w'. split; [exact Hrun|exact Hf].
Defined.

(** C7, counterexample.  pro.py's first append creates a history file
    that has no header and whose only row has four cells, without a
    timestamp.  And the append is no round trip in either program: a
    record whose condition is [None] and a record whose condition is the
    empty string are different records, but pandas writes the same text
    for their fields, so no reader of the file can give both back. *)
Lemma history_row_is_no_round_trip :
  let pw' :=
    (Pro.save_to_csv fair_weather "London" (PFloat (float_of_Z 15))
       (PStr "Cloudy") (PInt 80) pro_fresh).2 in
  Pro.history_file pro_fresh = None ∧
  Pro.history_file pw' =
    Some [Row [CValue (PStr "London"); CValue (PFloat (float_of_Z 15));
               CValue (PStr "Cloudy"); CValue (PInt 80)]] ∧
  header_count (Pro.history_file pw') = 0%nat ∧
  csv_weather_fields fair_weather (london_with_condition PNone)
    = csv_weather_fields fair_weather (london_with_condition (PStr "")) ∧
  london_with_condition PNone ≠ london_with_condition (PStr "").
Proof.
  cbv zeta. repeat split; try (vm_compute; reflexivity).
  intros H. apply (f_equal condition) in H. discriminate.
Qed.

Example csv_field_quotes :
  csv_field fair_weather (PStr "Rain, heavy")
  = String double_quote "Rain, heavy" +:+ String double_quote "".
Proof. vm_compute. reflexivity. Qed.
